(** * notafter: expiry classification, notification decision and report

    A shallow embedding of [main.go] of nishanths/notafter.  The source file
    holds two revisions of the program.  The one at lines 198-389
    ([expiryThreshold] of 30 days, [check], [mailBody]) is embedded in module
    [Rev30]; the one at lines 1-197 ([notifyExpiryThreshold] of 28 days,
    [getCertEnd], [resultsBody]) in module [Rev28].  What the two revisions
    share word for word ([Item], [pluralize], [all], [usage], [mailSubject])
    is embedded once, before the modules.

    Go's standard library is not part of the repository; the few functions
    the program calls are modelled first, each from its documentation. *)

From Stdlib Require Import ZArith List String Ascii Bool Lia.
From Stdlib Require Import DecimalString Permutation.
Import ListNotations.

Open Scope string_scope.
Open Scope Z_scope.

(** ** Package [time] *)

Module time.

(** [type Duration int64]: a count of nanoseconds. *)
Definition Duration := Z.

Definition Nanosecond : Duration := 1.
Definition Microsecond : Duration := 1000 * Nanosecond.
Definition Millisecond : Duration := 1000 * Microsecond.
Definition Second : Duration := 1000 * Millisecond.
Definition Minute : Duration := 60 * Second.
Definition Hour : Duration := 60 * Minute.

Definition minDuration : Duration := - 2 ^ 63.
Definition maxDuration : Duration := 2 ^ 63 - 1.

(** A [Time] is a wall-clock instant, here the number of nanoseconds since
    January 1, year 1, 00:00:00 UTC, the instant of the zero value
    [time.Time{}].  The expiry handed to [Sub] comes from a certificate or
    is the zero value, so it never carries a monotonic clock reading and
    [Sub] always compares wall-clock instants. *)
Definition Time := Z.

Definition zero : Time := 0.

(** [func (t Time) Sub(u Time) Duration]: the duration [t-u]; when it does
    not fit a [Duration], the maximum (or minimum) duration. *)
Definition Sub (t u : Time) : Duration :=
  let d := t - u in
  if d <? minDuration then minDuration
  else if maxDuration <? d then maxDuration
  else d.

End time.

(** ** Packages [errors], [fmt], [strings], [bytes] *)

(** The interface [error]: a value with an [Error() string] method. *)
Record error := mkError { Error : string }.

Module errors.
Definition New (text : string) : error := mkError text.
End errors.

Definition newline : ascii := ascii_of_nat 10.

Module fmt.

(** An operand of [Sprintf]: an integer (also a [Duration]) or a string. *)
Inductive operand :=
| Int (n : Z)
| Str (s : string).

(** The verb [%d] on an integer: its decimal digits, with a minus sign when
    negative. *)
Definition decimal (n : Z) : string := NilZero.string_of_int (Z.to_int n).

(** [Sprintf] for the verbs the program uses, [%d] on an integer and [%s] on
    a string; every other character of the format is copied. *)
Fixpoint Sprintf (format : string) (a : list operand) : string :=
  match format with
  | EmptyString => EmptyString
  | String "%" (String "d" rest) =>
      match a with
      | Int n :: a' => decimal n ++ Sprintf rest a'
      | _ => String "%" (String "d" (Sprintf rest a))
      end
  | String "%" (String "s" rest) =>
      match a with
      | Str s :: a' => s ++ Sprintf rest a'
      | _ => String "%" (String "s" (Sprintf rest a))
      end
  | String c rest => String c (Sprintf rest a)
  end.

End fmt.

Module strings.

(** [strings.Builder]: the bytes written so far. *)
Definition Builder := string.
Definition zero : Builder := EmptyString.
Definition WriteString (w : Builder) (s : string) : Builder := w ++ s.
Definition String_ (w : Builder) : string := w.

End strings.

Module bytes.

(** [bytes.Buffer]: the unread bytes. *)
Definition Buffer := string.
Definition zero : Buffer := EmptyString.
Definition WriteString (b : Buffer) (s : string) : Buffer := b ++ s.
Definition WriteByte (b : Buffer) (c : ascii) : Buffer :=
  b ++ String c EmptyString.
Definition String_ (b : Buffer) : string := b.

End bytes.

(** ** Declarations shared by the two revisions *)

Definition mailSubject : string := "notafter: domain cert expiries".

Record Item := mkItem {
  domain : string;
  end_ : time.Time;
  err : option error (* generic error; [None] is Go's [nil] *)
}.

Definition pluralize (n : Z) (noun : string) : string :=
  if n =? 1 then noun else noun ++ "s".

Fixpoint all {E : Type} (s : list E) (f : E -> bool) : bool :=
  match s with
  | [] => true
  | v :: s' => if negb (f v) then false else all s' f
  end.

(** ** The process and its surroundings

    What the program reads from outside is gathered in an [Env]; what it does
    to the outside is recorded in a [World].  A command is a function on the
    [World] that either returns a value or ends the process with an exit
    status, after which nothing else runs. *)

(** The fields of [x509.Certificate] a report could look at. *)
Record Certificate := mkCertificate {
  Subject : string;
  Issuer : string;
  NotBefore : time.Time;
  NotAfter : time.Time
}.

(** What [dialer.DialContext] gives: an error (network failure, timeout,
    failed handshake), or a connection whose state holds the certificates the
    peer presented. *)
Inductive DialResult :=
| DialError (e : error)
| Connected (PeerCertificates : list Certificate).

(** [os.Stdin] as the scanner sees it: the lines [scanner.Text] yields and
    the value of [scanner.Err] once [scanner.Scan] has returned false. *)
Record Reader := mkReader {
  Lines : list string;
  ScanErr : option error
}.

(** [flag.Parse] ends the process by itself on [-h] or on a flag that is
    not defined; a run is modelled from the point where it has returned. *)
Record Env := mkEnv {
  Args : list string;  (* [flag.Args()], once [flag.Parse] has returned *)
  Now : time.Time;     (* [time.Now()] *)
  Stdin : Reader;
  (* what the goroutine of index [idx] gets when it dials an address *)
  Dial : nat -> string -> DialResult;
  (* what [cmd.Run] returns for mail(1) run with a recipient and a body *)
  MailRun : string -> string -> option error
}.

Record Logger := mkLogger {
  prefix : string;
  flags : Z
}.

Record World := mkWorld {
  Stderr : string;
  Stdout : string;
  Dialed : list string;                  (* addresses dialed *)
  Ran : list (list string * string);     (* commands run: argv, standard input *)
  std : Logger                           (* the standard logger of [log] *)
}.

(** The world a process starts in; [log]'s standard logger starts with an
    empty prefix and the flags [LstdFlags] (3). *)
Definition world0 : World := mkWorld "" "" [] [] (mkLogger "" 3).

Inductive Outcome (A : Type) :=
| Done (a : A)
| Exit (code : Z).
Arguments Done {A} a.
Arguments Exit {A} code.

Definition Proc (A : Type) := World -> Outcome A * World.

Definition ret {A : Type} (a : A) : Proc A := fun w => (Done a, w).

Definition bind {A B : Type} (m : Proc A) (k : A -> Proc B) : Proc B :=
  fun w =>
    match m w with
    | (Done a, w') => k a w'
    | (Exit code, w') => (Exit code, w')
    end.

Notation "x <- m ;; k" := (bind m (fun x => k))
  (at level 61, m at next level, right associativity).
Notation "m ;; k" := (bind m (fun _ => k))
  (at level 61, right associativity).

(** The exit status of a process whose [main] is [m]: that of [os.Exit], or 0
    when [main] returns. *)
Definition status (r : Outcome unit * World) : Z :=
  match fst r with
  | Done _ => 0
  | Exit code => code
  end.

Module os.
Definition Exit {A : Type} (code : Z) : Proc A := fun w => (Exit code, w).
End os.

Definition eprint (s : string) : Proc unit :=
  fun w => (Done tt, mkWorld (Stderr w ++ s) (Stdout w) (Dialed w) (Ran w) (std w)).

Fixpoint endsWithNewline (s : string) : bool :=
  match s with
  | EmptyString => false
  | String c EmptyString => Ascii.eqb c newline
  | String _ rest => endsWithNewline rest
  end.

Module log.

Definition SetPrefix (p : string) : Proc unit :=
  fun w => (Done tt,
    mkWorld (Stderr w) (Stdout w) (Dialed w) (Ran w) (mkLogger p (flags (std w)))).

Definition SetFlags (flag : Z) : Proc unit :=
  fun w => (Done tt,
    mkWorld (Stderr w) (Stdout w) (Dialed w) (Ran w) (mkLogger (prefix (std w)) flag)).

(** [log.Fatal]: a line on standard error, the prefix and the message, with
    a newline added when the message does not end in one; then
    [os.Exit(1)].  The date and time that non-zero flags put between
    prefix and message are left out: [main] sets the flags to 0 before
    anything is logged. *)
Definition Fatal {A : Type} (msg : string) : Proc A :=
  fun w =>
    let line :=
      prefix (std w) ++ msg ++
      (if endsWithNewline msg then "" else String newline "") in
    (eprint line ;; os.Exit 1) w.

End log.

(** [fmt.Print] of one string: the string on standard output. *)
Definition Print (s : string) : Proc unit :=
  fun w => (Done tt, mkWorld (Stderr w) (Stdout w ++ s) (Dialed w) (Ran w) (std w)).

(** [tls.Dialer.DialContext] with the network ["tcp"]: the address is dialed
    and the surroundings say what comes back. *)
Definition DialContext (net : string -> DialResult) (addr : string)
  : Proc DialResult :=
  fun w =>
    (Done (net addr),
     mkWorld (Stderr w) (Stdout w) (Dialed w ++ [addr]) (Ran w) (std w)).

(** [exec.Command(name, arg...)] with [cmd.Stdin] set, then [cmd.Run()]. *)
Definition Run (argv : list string) (stdin : string) (result : option error)
  : Proc (option error) :=
  fun w =>
    (Done result,
     mkWorld (Stderr w) (Stdout w) (Dialed w) (Ran w ++ [(argv, stdin)]) (std w)).

Definition usage : Proc unit :=
  eprint (fmt.Sprintf ("usage: notafter [<recipient>] < domains.txt" ++ String newline "") []).

(** [items[idx] = v] on a slice; an index out of range panics in Go, and no
    goroutine of [main] has one (see [probe_slots30]). *)
Fixpoint store {A : Type} (items : list A) (idx : nat) (v : A) : list A :=
  match items, idx with
  | [], _ => []
  | _ :: rest, O => v :: rest
  | x :: rest, S idx' => x :: store rest idx' v
  end.

Definition zeroItem : Item := mkItem "" time.zero None.

(** ** The revision with the 30-day threshold (lines 198-389) *)

Module Rev30.

Definition expiryThreshold : time.Duration := 30 * 24 * time.Hour.

Definition needsNotify (i : Item) (now : time.Time) : bool :=
  match err i with
  | Some _ => true
  | None =>
      if time.Sub (end_ i) now >? expiryThreshold then false else true
  end.

Definition expiryInfo (end_ now : time.Time) : string :=
  let gap := time.Sub end_ now in
  if gap >? expiryThreshold then "ok"
  else if gap <? 0 then "already expired"
  else if gap <? 24 * time.Hour then "expires in less than a day"
  else
    let n := Z.quot gap (24 * time.Hour) in
    fmt.Sprintf "expires in %d %s"
      [fmt.Int n; fmt.Str (pluralize n "day")].

Definition format (i : Item) (now : time.Time) : string :=
  let w := strings.zero in
  let w := strings.WriteString w (domain i ++ ": ") in
  let w :=
    match err i with
    | Some e => strings.WriteString w (Error e)
    | None => strings.WriteString w (expiryInfo (end_ i) now)
    end in
  strings.String_ w.

(** The loop of [mailBody]: one [WriteString] and one [WriteByte] per item,
    on the buffer the loop threads through. *)
Definition mailBody (items : list Item) (now : time.Time) : bytes.Buffer :=
  fold_left
    (fun buf i => bytes.WriteByte (bytes.WriteString buf (format i now)) newline)
    items bytes.zero.

(** [check]: the dialer skips verification and the context ends after 5
    seconds; both are the surroundings' business, which answer through
    [net].  Closing the connection leaves no trace in the [World]. *)
Definition check (net : string -> DialResult) (d : string)
  : Proc (time.Time * option error) :=
  conn <- DialContext net (fmt.Sprintf "%s:443" [fmt.Str d]) ;;
  match conn with
  | DialError e => ret (time.zero, Some e)
  | Connected cs =>
      match cs with
      | [] => ret (time.zero, Some (errors.New "no peer certificates"))
      | leaf :: _ => ret (NotAfter leaf, None)
      end
  end.

Definition sendMail (env : Env) (recipient : string) (body : bytes.Buffer)
  : Proc (option error) :=
  Run ["mail"; "-s"; mailSubject; recipient] (bytes.String_ body)
      (MailRun env recipient (bytes.String_ body)).

Definition notify (env : Env) (items : list Item) (now : time.Time)
  (recipient : string) : Proc (option error) :=
  sendMail env recipient (mailBody items now).

(** The body of the goroutine started for [idx]: it fills slot [idx]. *)
Definition worker (env : Env) (ds : list string) (idx : nat)
  (items : list Item) : Proc (list Item) :=
  r <- check (Dial env idx) (nth idx ds "") ;;
  ret (store items idx (mkItem (nth idx ds "") (fst r) (snd r))).

(** The goroutines up to [wg.Wait()].  Each writes its own slot and [main]
    reads [items] only after the wait, so they are run here one after the
    other, in the order of their indices. *)
Fixpoint spawn (env : Env) (ds : list string) (idxs : list nat)
  (items : list Item) : Proc (list Item) :=
  match idxs with
  | [] => ret items
  | idx :: rest =>
      items' <- worker env ds idx items ;;
      spawn env ds rest items'
  end.

Section Program.

(** [strings.TrimSpace], a function of Go's library. *)
Variable TrimSpace : string -> string.

Definition domains (r : Reader) : list string * option error :=
  let out := fold_left (fun out text => (out ++ [TrimSpace text])%list) (Lines r) [] in
  match ScanErr r with
  | Some e => ([], Some e)
  | None => (out, None)
  end.

Definition main (env : Env) : Proc unit :=
  log.SetPrefix "notafter: " ;;
  log.SetFlags 0 ;;
  if negb (Nat.eqb (List.length (Args env)) 1) then
    usage ;;
    os.Exit 2
  else
    let recipient := nth 0 (Args env) "" in
    let now := Now env in
    (* parse domains. *)
    let (ds, err) := domains (Stdin env) in
    match err with
    | Some e => log.Fatal (Error e)
    | None =>
        if Nat.eqb (List.length ds) 0 then
          log.Fatal "no domains" (* prevent common misconfiguration *)
        else
          items <- spawn env ds (seq 0 (List.length ds))
                     (repeat zeroItem (List.length ds)) ;;
          let noNotify := fun i => negb (needsNotify i now) in
          if all items noNotify then os.Exit 0
          else
            err <- notify env items now recipient ;;
            match err with
            | Some e => log.Fatal (Error e)
            | None => ret tt
            end
    end.

End Program.

End Rev30.

(** ** The revision with the 28-day threshold (lines 1-197) *)

Module Rev28.

Definition notifyExpiryThreshold : time.Duration := 28 * 24 * time.Hour.

Definition needsNotify (i : Item) (now : time.Time) : bool :=
  match err i with
  | Some _ => true
  | None =>
      if time.Sub (end_ i) now >? notifyExpiryThreshold then false else true
  end.

Definition expiryInfo (end_ now : time.Time) : string :=
  let gap := time.Sub end_ now in
  if gap >? notifyExpiryThreshold then "good"
  else if gap <? 0 then "expired"
  else if gap <? 24 * time.Hour then "expires in less than 24h"
  else
    let n := Z.quot gap (24 * time.Hour) in
    fmt.Sprintf "expires in %d %s"
      [fmt.Int n; fmt.Str (pluralize n "day")].

Definition format (i : Item) (now : time.Time) : string :=
  let w := strings.zero in
  let w := strings.WriteString w (domain i ++ ": ") in
  let w :=
    match err i with
    | Some e => strings.WriteString w (Error e)
    | None => strings.WriteString w (expiryInfo (end_ i) now)
    end in
  strings.String_ w.

Definition resultsBody (items : list Item) (now : time.Time) : string :=
  bytes.String_
    (fold_left
       (fun buf i => bytes.WriteByte (bytes.WriteString buf (format i now)) newline)
       items bytes.zero).

Definition getCertEnd (net : string -> DialResult) (domain : string)
  : Proc (time.Time * option error) :=
  conn <- DialContext net (fmt.Sprintf "%s:443" [fmt.Str domain]) ;;
  match conn with
  | DialError e => ret (time.zero, Some e)
  | Connected cs =>
      match cs with
      | [] => ret (time.zero, Some (errors.New "no peer certificates"))
      | leaf :: _ => ret (NotAfter leaf, None)
      end
  end.

Definition sendMail (env : Env) (recipient : string) (body : string)
  : Proc (option error) :=
  Run ["mail"; "-s"; mailSubject; recipient] body (MailRun env recipient body).

Definition worker (env : Env) (ds : list string) (idx : nat)
  (items : list Item) : Proc (list Item) :=
  r <- getCertEnd (Dial env idx) (nth idx ds "") ;;
  ret (store items idx (mkItem (nth idx ds "") (fst r) (snd r))).

Fixpoint spawn (env : Env) (ds : list string) (idxs : list nat)
  (items : list Item) : Proc (list Item) :=
  match idxs with
  | [] => ret items
  | idx :: rest =>
      items' <- worker env ds idx items ;;
      spawn env ds rest items'
  end.

Section Program.

Variable TrimSpace : string -> string.

Definition domains (r : Reader) : list string * option error :=
  let out := fold_left (fun out text => (out ++ [TrimSpace text])%list) (Lines r) [] in
  (out, ScanErr r).

Definition main (env : Env) : Proc unit :=
  log.SetPrefix "notafter: " ;;
  log.SetFlags 0 ;;
  if negb (Nat.eqb (List.length (Args env)) 1) then
    usage ;;
    os.Exit 2
  else
    let recipient := nth 0 (Args env) "" in
    let now := Now env in
    (* parse domains. *)
    let (ds, err) := domains (Stdin env) in
    match err with
    | Some e => log.Fatal (Error e)
    | None =>
        if Nat.eqb (List.length ds) 0 then
          log.Fatal "no domains" (* prevent common misconfiguration *)
        else
          items <- spawn env ds (seq 0 (List.length ds))
                     (repeat zeroItem (List.length ds)) ;;
          let noNotify := fun i => negb (needsNotify i now) in
          if all items noNotify then os.Exit 0
          else
            let body := resultsBody items now in
            (* print results to stdout. *)
            Print body ;;
            (* mail the results. *)
            err <- sendMail env recipient body ;;
            match err with
            | Some e => log.Fatal (Error e)
            | None => ret tt
            end
    end.

End Program.

End Rev28.

(** ** Vocabulary of the statements

    The definitions below are not code of the program; the theorems use them
    to speak about it. *)

Definition day : time.Duration := 24 * time.Hour.

(** The text [format] writes after the domain and the colon. *)
Definition classification30 (i : Item) (now : time.Time) : string :=
  match err i with
  | Some e => Error e
  | None => Rev30.expiryInfo (end_ i) now
  end.

Definition classification28 (i : Item) (now : time.Time) : string :=
  match err i with
  | Some e => Error e
  | None => Rev28.expiryInfo (end_ i) now
  end.

(** The value [check] (and [getCertEnd]) returns for what the dialer gave. *)
Definition certEnd (r : DialResult) : time.Time * option error :=
  match r with
  | DialError e => (time.zero, Some e)
  | Connected [] => (time.zero, Some (errors.New "no peer certificates"))
  | Connected (leaf :: _) => (NotAfter leaf, None)
  end.

Definition address (d : string) : string := d ++ ":443".

(** The probe results of the domains [ds], the first of which has index
    [idx], in the order of [ds]. *)
Fixpoint resultsFrom (env : Env) (idx : nat) (ds : list string) : list Item :=
  match ds with
  | [] => []
  | d :: ds' =>
      let r := certEnd (Dial env idx (address d)) in
      mkItem d (fst r) (snd r) :: resultsFrom env (S idx) ds'
  end.

(** A world in which more addresses have been dialed. *)
Definition dialedMore (w : World) (addrs : list string) : World :=
  mkWorld (Stderr w) (Stdout w) (Dialed w ++ addrs) (Ran w) (std w).

(** The world [main] is in once the logger is set up. *)
Definition world1 : World := mkWorld "" "" [] [] (mkLogger "notafter: " 0).

(** The command line of mail(1). *)
Definition mailArgv (recipient : string) : list string :=
  ["mail"; "-s"; mailSubject; recipient].

Fixpoint concat (l : list string) : string :=
  match l with
  | [] => ""
  | s :: l' => s ++ concat l'
  end.


(** The line [log.Fatal] writes for a message, with the prefix [main] sets. *)
Definition fatalLine (msg : string) : string :=
  "notafter: " ++ msg ++ (if endsWithNewline msg then "" else String newline "").

(** An item whose expiry is [k] nanoseconds later. *)
Definition shift (k : Z) (i : Item) : Item :=
  mkItem (domain i) (end_ i + k) (err i).

(** The number of newline characters of a string. *)
Fixpoint newlines (s : string) : nat :=
  match s with
  | EmptyString => 0%nat
  | String c s' => ((if Ascii.eqb c newline then 1 else 0) + newlines s')%nat
  end.

(** A report line: the domain, a colon and a space, a classification, a
    newline. *)
Definition line (classification : Item -> string) (i : Item) : string :=
  domain i ++ ": " ++ classification i ++ String newline "".

Ltac branch :=
  repeat match goal with
  | |- context [?a >? ?b] =>
      let H := fresh in destruct (Z.gtb_spec a b) as [H|H]; try lia
  | |- context [?a <? ?b] =>
      let H := fresh in destruct (Z.ltb_spec a b) as [H|H]; try lia
  | |- context [?a =? ?b] =>
      let H := fresh in destruct (Z.eqb_spec a b) as [H|H]; try lia
  end.

(** * Properties *)

(** ** Strings *)

Lemma append_empty_r (s : string) : s ++ "" = s.
Proof.
  induction s as [|c s IH]; simpl; [reflexivity | now rewrite IH].
Qed.

Lemma append_assoc (a b c : string) : (a ++ b) ++ c = a ++ (b ++ c).
Proof.
  induction a as [|x a IH]; simpl; [reflexivity | now rewrite IH].
Qed.

(** The two formats of the program, unfolded. *)
Lemma Sprintf_expires (n : Z) (noun : string) :
  fmt.Sprintf "expires in %d %s" [fmt.Int n; fmt.Str noun]
  = "expires in " ++ fmt.decimal n ++ " " ++ noun.
Proof.
  cbn [fmt.Sprintf append]. now rewrite append_empty_r.
Qed.

Lemma Sprintf_address (d : string) :
  fmt.Sprintf "%s:443" [fmt.Str d] = d ++ ":443".
Proof. reflexivity. Qed.

(** ** Durations *)

Lemma day_ns : day = 86400000000000.
Proof. reflexivity. Qed.

Lemma Sub_range (t u : time.Time) :
  time.minDuration <= time.Sub t u <= time.maxDuration.
Proof.
  unfold time.Sub, time.minDuration, time.maxDuration; cbv zeta.
  destruct (Z.ltb_spec (t - u) (- 2 ^ 63));
    [|destruct (Z.ltb_spec (2 ^ 63 - 1) (t - u))]; lia.
Qed.

(** Within the range of a [Duration], [Sub] is the difference. *)
Lemma Sub_exact (t u : time.Time) :
  time.minDuration <= t - u <= time.maxDuration -> time.Sub t u = t - u.
Proof.
  unfold time.Sub, time.minDuration, time.maxDuration; cbv zeta; intros H.
  destruct (Z.ltb_spec (t - u) (- 2 ^ 63));
    [|destruct (Z.ltb_spec (2 ^ 63 - 1) (t - u))]; lia.
Qed.

(** Every duration is the gap of some expiry, whatever the time is. *)
Lemma every_gap_occurs (g : time.Duration) (now : time.Time) :
  time.minDuration <= g <= time.maxDuration -> time.Sub (now + g) now = g.
Proof.
  intros H. rewrite Sub_exact; [lia|]. now replace (now + g - now) with g by lia.
Qed.

(** Clamping keeps the order of the gap with any duration in range, so a
    bucket can be read off the difference of the two instants as well. *)
Lemma Sub_gt (t u : time.Time) (d : time.Duration) :
  time.minDuration <= d < time.maxDuration -> (time.Sub t u > d <-> t - u > d).
Proof.
  unfold time.Sub, time.minDuration, time.maxDuration; cbv zeta; intros H.
  destruct (Z.ltb_spec (t - u) (- 2 ^ 63));
    [|destruct (Z.ltb_spec (2 ^ 63 - 1) (t - u))]; lia.
Qed.

Lemma Sub_lt (t u : time.Time) (d : time.Duration) :
  time.minDuration < d <= time.maxDuration -> (time.Sub t u < d <-> t - u < d).
Proof.
  unfold time.Sub, time.minDuration, time.maxDuration; cbv zeta; intros H.
  destruct (Z.ltb_spec (t - u) (- 2 ^ 63));
    [|destruct (Z.ltb_spec (2 ^ 63 - 1) (t - u))]; lia.
Qed.

(** ** The branches of [expiryInfo] *)

Lemma threshold30_days : Rev30.expiryThreshold = 30 * day.
Proof. reflexivity. Qed.

Lemma threshold28_days : Rev28.notifyExpiryThreshold = 28 * day.
Proof. reflexivity. Qed.

Lemma expiryInfo30_ok (e now : time.Time) :
  time.Sub e now > Rev30.expiryThreshold -> Rev30.expiryInfo e now = "ok".
Proof.
  intros H. unfold Rev30.expiryInfo; cbv zeta. now branch.
Qed.

Lemma expiryInfo30_expired (e now : time.Time) :
  time.Sub e now < 0 -> Rev30.expiryInfo e now = "already expired".
Proof.
  intros H. unfold Rev30.expiryInfo; cbv zeta.
  assert (0 < Rev30.expiryThreshold) by reflexivity. now branch.
Qed.

Lemma expiryInfo30_lt_day (e now : time.Time) :
  0 <= time.Sub e now < day ->
  Rev30.expiryInfo e now = "expires in less than a day".
Proof.
  intros H. unfold Rev30.expiryInfo; cbv zeta. fold day.
  assert (day < Rev30.expiryThreshold) by reflexivity. now branch.
Qed.

Lemma expiryInfo30_days (e now : time.Time) :
  day <= time.Sub e now <= Rev30.expiryThreshold ->
  Rev30.expiryInfo e now
  = "expires in " ++ fmt.decimal (time.Sub e now / day) ++ " "
      ++ (if time.Sub e now / day =? 1 then "day" else "days").
Proof.
  intros H. unfold Rev30.expiryInfo; cbv zeta. fold day.
  assert (0 < day) by reflexivity.
  branch; rewrite Sprintf_expires, Z.quot_div_nonneg by lia;
    unfold pluralize; branch; reflexivity.
Qed.

(** The same four branches in the revision with the 28-day threshold, with
    the wording of that revision. *)
Lemma expiryInfo28_good (e now : time.Time) :
  time.Sub e now > Rev28.notifyExpiryThreshold -> Rev28.expiryInfo e now = "good".
Proof.
  intros H. unfold Rev28.expiryInfo; cbv zeta. now branch.
Qed.

Lemma expiryInfo28_expired (e now : time.Time) :
  time.Sub e now < 0 -> Rev28.expiryInfo e now = "expired".
Proof.
  intros H. unfold Rev28.expiryInfo; cbv zeta.
  assert (0 < Rev28.notifyExpiryThreshold) by reflexivity. now branch.
Qed.

Lemma expiryInfo28_lt_day (e now : time.Time) :
  0 <= time.Sub e now < day ->
  Rev28.expiryInfo e now = "expires in less than 24h".
Proof.
  intros H. unfold Rev28.expiryInfo; cbv zeta. fold day.
  assert (day < Rev28.notifyExpiryThreshold) by reflexivity. now branch.
Qed.

Lemma expiryInfo28_days (e now : time.Time) :
  day <= time.Sub e now <= Rev28.notifyExpiryThreshold ->
  Rev28.expiryInfo e now
  = "expires in " ++ fmt.decimal (time.Sub e now / day) ++ " "
      ++ (if time.Sub e now / day =? 1 then "day" else "days").
Proof.
  intros H. unfold Rev28.expiryInfo; cbv zeta. fold day.
  assert (0 < day) by reflexivity.
  branch; rewrite Sprintf_expires, Z.quot_div_nonneg by lia;
    unfold pluralize; branch; reflexivity.
Qed.

(** The four conditions leave no gap out and no two of them hold together. *)
Lemma buckets_cover (g T : time.Duration) :
  day <= T ->
  (g > T /\ ~ g < 0 /\ ~ 0 <= g < day /\ ~ day <= g <= T) \/
  (g < 0 /\ ~ g > T /\ ~ 0 <= g < day /\ ~ day <= g <= T) \/
  (0 <= g < day /\ ~ g > T /\ ~ g < 0 /\ ~ day <= g <= T) \/
  (day <= g <= T /\ ~ g > T /\ ~ g < 0 /\ ~ 0 <= g < day).
Proof.
  rewrite day_ns. lia.
Qed.

(** What [format] writes: the domain, a colon and a space, the
    classification. *)
Lemma format30_shape (i : Item) (now : time.Time) :
  Rev30.format i now = domain i ++ ": " ++ classification30 i now.
Proof.
  unfold Rev30.format, classification30, strings.String_, strings.WriteString,
    strings.zero; cbv zeta.
  destruct (err i); simpl; now rewrite append_assoc.
Qed.

Lemma format28_shape (i : Item) (now : time.Time) :
  Rev28.format i now = domain i ++ ": " ++ classification28 i now.
Proof.
  unfold Rev28.format, classification28, strings.String_, strings.WriteString,
    strings.zero; cbv zeta.
  destruct (err i); simpl; now rewrite append_assoc.
Qed.

(** [expiryInfo] answers "ok" (or "good") for no gap other than those above
    the threshold. *)
Lemma expiryInfo30_ok_iff (e now : time.Time) :
  Rev30.expiryInfo e now = "ok" <-> time.Sub e now > Rev30.expiryThreshold.
Proof.
  split; [|apply expiryInfo30_ok].
  intros H.
  destruct (buckets_cover (time.Sub e now) Rev30.expiryThreshold) as
    [(G & _)|[(G & _)|[(G & _)|(G & _)]]]; [discriminate | assumption | | |].
  - rewrite expiryInfo30_expired in H by assumption. discriminate.
  - rewrite expiryInfo30_lt_day in H by assumption. discriminate.
  - rewrite expiryInfo30_days in H by assumption. discriminate.
Qed.

Lemma expiryInfo28_good_iff (e now : time.Time) :
  Rev28.expiryInfo e now = "good" <-> time.Sub e now > Rev28.notifyExpiryThreshold.
Proof.
  split; [|apply expiryInfo28_good].
  intros H.
  destruct (buckets_cover (time.Sub e now) Rev28.notifyExpiryThreshold) as
    [(G & _)|[(G & _)|[(G & _)|(G & _)]]]; [discriminate | assumption | | |].
  - rewrite expiryInfo28_expired in H by assumption. discriminate.
  - rewrite expiryInfo28_lt_day in H by assumption. discriminate.
  - rewrite expiryInfo28_days in H by assumption. discriminate.
Qed.

Lemma needsNotify30_false (i : Item) (now : time.Time) :
  Rev30.needsNotify i now = false
  <-> err i = None /\ time.Sub (end_ i) now > Rev30.expiryThreshold.
Proof.
  unfold Rev30.needsNotify. destruct (err i) as [e|].
  - split; [discriminate | intros [H _]; discriminate].
  - destruct (Z.gtb_spec (time.Sub (end_ i) now) Rev30.expiryThreshold) as [G|G].
    + split; [intros _; split; [reflexivity | lia] | reflexivity].
    + split; [discriminate | intros [_ G']; lia].
Qed.

Lemma needsNotify28_false (i : Item) (now : time.Time) :
  Rev28.needsNotify i now = false
  <-> err i = None /\ time.Sub (end_ i) now > Rev28.notifyExpiryThreshold.
Proof.
  unfold Rev28.needsNotify. destruct (err i) as [e|].
  - split; [discriminate | intros [H _]; discriminate].
  - destruct (Z.gtb_spec (time.Sub (end_ i) now) Rev28.notifyExpiryThreshold) as [G|G].
    + split; [intros _; split; [reflexivity | lia] | reflexivity].
    + split; [discriminate | intros [_ G']; lia].
Qed.

(** ** Classification *)

(** C1.  The classification that [format] writes with [expiryInfo] is a
    function of the error, the gap [g = end.Sub(now)] and the threshold of 30
    days: the description of the error when there is one; otherwise "ok" for
    [g] above the threshold, "already expired" for [g < 0], "expires in less
    than a day" for [0 <= g < 24h], and "expires in N day(s)" for
    [24h <= g <= threshold].  Exactly one of the four conditions on the gap
    holds, so every input has a classification. *)
Theorem classification_table (i : Item) (now : time.Time) :
  let g := time.Sub (end_ i) now in
  let T := Rev30.expiryThreshold in
  (forall e, err i = Some e ->
     Rev30.format i now = domain i ++ ": " ++ Error e) /\
  (err i = None ->
     Rev30.format i now = domain i ++ ": " ++ Rev30.expiryInfo (end_ i) now /\
     (g > T -> Rev30.expiryInfo (end_ i) now = "ok") /\
     (g < 0 -> Rev30.expiryInfo (end_ i) now = "already expired") /\
     (0 <= g < 24 * time.Hour ->
        Rev30.expiryInfo (end_ i) now = "expires in less than a day") /\
     (24 * time.Hour <= g <= T ->
        Rev30.expiryInfo (end_ i) now
        = "expires in " ++ fmt.decimal (g / (24 * time.Hour)) ++ " "
            ++ (if g / (24 * time.Hour) =? 1 then "day" else "days"))) /\
  ((g > T /\ ~ g < 0 /\ ~ 0 <= g < 24 * time.Hour /\ ~ 24 * time.Hour <= g <= T) \/
   (g < 0 /\ ~ g > T /\ ~ 0 <= g < 24 * time.Hour /\ ~ 24 * time.Hour <= g <= T) \/
   (0 <= g < 24 * time.Hour /\ ~ g > T /\ ~ g < 0 /\ ~ 24 * time.Hour <= g <= T) \/
   (24 * time.Hour <= g <= T /\ ~ g > T /\ ~ g < 0 /\ ~ 0 <= g < 24 * time.Hour)).
Proof.
  cbv zeta. fold day. split; [|split].
  - intros e He. rewrite format30_shape. unfold classification30. now rewrite He.
  - intros He. split; [|repeat split].
    + rewrite format30_shape. unfold classification30. now rewrite He.
    + apply expiryInfo30_ok.
    + apply expiryInfo30_expired.
    + apply expiryInfo30_lt_day.
    + apply expiryInfo30_days.
  - apply buckets_cover. discriminate.
Qed.

Lemma classification_table_witness :
  Rev30.format (mkItem "a.example" (1000 + 10 * day) None) 1000
  = "a.example: expires in 10 days".
Proof.
  destruct (classification_table (mkItem "a.example" (1000 + 10 * day) None) 1000)
    as (_ & H & _).
  destruct (H eq_refl) as (F & _ & _ & _ & D).
  rewrite F, D; [reflexivity|].
  vm_compute. split; discriminate.
Defined.

(** C4, as the code has it.  An error-free result whose gap is exactly the
    threshold of 30 days is classified "expires in 30 days", not "ok", and it
    triggers notification by itself.  "ok" and no notification begin
    strictly above the threshold: an error-free result is classified "ok"
    exactly when its gap is above the threshold, and it needs no
    notification exactly then. *)
Theorem gap_equal_threshold (i : Item) (now : time.Time) :
  err i = None ->
  (time.Sub (end_ i) now = Rev30.expiryThreshold ->
     Rev30.expiryInfo (end_ i) now = "expires in 30 days" /\
     Rev30.format i now = domain i ++ ": expires in 30 days" /\
     Rev30.needsNotify i now = true /\
     all [i] (fun i => negb (Rev30.needsNotify i now)) = false) /\
  (time.Sub (end_ i) now > Rev30.expiryThreshold ->
     Rev30.expiryInfo (end_ i) now = "ok" /\
     Rev30.format i now = domain i ++ ": ok" /\
     Rev30.needsNotify i now = false /\
     all [i] (fun i => negb (Rev30.needsNotify i now)) = true) /\
  (Rev30.expiryInfo (end_ i) now = "ok"
   <-> time.Sub (end_ i) now > Rev30.expiryThreshold) /\
  (Rev30.needsNotify i now = false
   <-> time.Sub (end_ i) now > Rev30.expiryThreshold) /\
  (time.Sub (end_ i) now <= Rev30.expiryThreshold ->
     Rev30.expiryInfo (end_ i) now <> "ok" /\ Rev30.needsNotify i now = true).
Proof.
  intros He.
  assert (B : forall b : bool, b <> false -> b = true)
    by (intros [|] H; [reflexivity | now elim H]).
  assert (N : Rev30.needsNotify i now = false
              <-> time.Sub (end_ i) now > Rev30.expiryThreshold).
  { rewrite needsNotify30_false. split; [now intros [_ G] | now split]. }
  split; [|split; [|split; [|split]]].
  - intros G.
    assert (E : Rev30.expiryInfo (end_ i) now = "expires in 30 days").
    { rewrite expiryInfo30_days by (rewrite G; split; discriminate).
      rewrite G. reflexivity. }
    assert (T : Rev30.needsNotify i now = true).
    { apply B. intros F. apply N in F. lia. }
    split; [exact E|]. split; [|split; [exact T|]].
    + rewrite format30_shape. unfold classification30. now rewrite He, E.
    + simpl. now rewrite T.
  - intros G.
    assert (E : Rev30.expiryInfo (end_ i) now = "ok") by now apply expiryInfo30_ok.
    assert (F : Rev30.needsNotify i now = false) by now apply N.
    split; [exact E|]. split; [|split; [exact F|]].
    + rewrite format30_shape. unfold classification30. now rewrite He, E.
    + simpl. now rewrite F.
  - apply expiryInfo30_ok_iff.
  - exact N.
  - intros G. split.
    + intros E. apply expiryInfo30_ok_iff in E. lia.
    + apply B. intros F. apply N in F. lia.
Qed.

Lemma gap_equal_threshold_witness :
  Rev30.expiryInfo (1000 + 30 * day) 1000 = "expires in 30 days" /\
  Rev30.needsNotify (mkItem "a.example" (1000 + 30 * day) None) 1000 = true /\
  Rev30.expiryInfo (1001 + 30 * day) 1000 = "ok" /\
  Rev30.needsNotify (mkItem "a.example" (1001 + 30 * day) None) 1000 = false.
Proof.
  destruct (gap_equal_threshold (mkItem "a.example" (1000 + 30 * day) None) 1000
              eq_refl) as (H & _).
  destruct (H eq_refl) as (E & _ & N & _).
  destruct (gap_equal_threshold (mkItem "a.example" (1001 + 30 * day) None) 1000
              eq_refl) as (_ & K & _).
  destruct K as (E' & _ & N' & _); [reflexivity|].
  split; [exact E | split; [exact N | split; [exact E' | exact N']]].
Defined.

(** C4 as claimed fails: with the expiry exactly 30 days after [now], the
    classification is not "ok" and the result does trigger notification. *)
Lemma gap_equal_threshold_not_ok :
  ~ (forall (i : Item) (now : time.Time),
       err i = None ->
       time.Sub (end_ i) now = Rev30.expiryThreshold ->
       Rev30.expiryInfo (end_ i) now = "ok" /\ Rev30.needsNotify i now = false).
Proof.
  intros H.
  destruct (H (mkItem "a.example" (1000 + 30 * day) None) 1000 eq_refl eq_refl)
    as [E _].
  vm_compute in E. discriminate.
Qed.

(** C5.  An error-free result with a gap of exactly 0 is classified "expires
    in less than a day", not "already expired"; with any negative gap, be it
    of one nanosecond, it is classified "already expired". *)
Theorem zero_and_negative_gap (i : Item) (now : time.Time) :
  err i = None ->
  (time.Sub (end_ i) now = 0 ->
     Rev30.expiryInfo (end_ i) now = "expires in less than a day" /\
     Rev30.expiryInfo (end_ i) now <> "already expired" /\
     Rev30.format i now = domain i ++ ": expires in less than a day") /\
  (time.Sub (end_ i) now < 0 ->
     Rev30.expiryInfo (end_ i) now = "already expired" /\
     Rev30.format i now = domain i ++ ": already expired").
Proof.
  intros He. split; intros G.
  - assert (E : Rev30.expiryInfo (end_ i) now = "expires in less than a day")
      by (apply expiryInfo30_lt_day; rewrite G; split; [discriminate | reflexivity]).
    repeat split.
    + exact E.
    + rewrite E. discriminate.
    + rewrite format30_shape. unfold classification30. now rewrite He, E.
  - assert (E : Rev30.expiryInfo (end_ i) now = "already expired")
      by now apply expiryInfo30_expired.
    split; [exact E|].
    rewrite format30_shape. unfold classification30. now rewrite He, E.
Qed.

Lemma zero_and_negative_gap_witness :
  Rev30.expiryInfo 1000 1000 = "expires in less than a day" /\
  Rev30.expiryInfo 999 1000 = "already expired" /\
  Rev30.expiryInfo (1000 - time.Hour) 1000 = "already expired".
Proof.
  destruct (zero_and_negative_gap (mkItem "a.example" 1000 None) 1000 eq_refl)
    as [Z _].
  destruct (zero_and_negative_gap (mkItem "a.example" 999 None) 1000 eq_refl)
    as [_ N].
  destruct (zero_and_negative_gap (mkItem "a.example" (1000 - time.Hour) None)
              1000 eq_refl) as [_ P].
  split; [|split].
  - apply Z. reflexivity.
  - apply N. reflexivity.
  - apply P. reflexivity.
Defined.

(** C6.  An error-free result with [24h <= gap <= threshold] is classified
    "expires in N day(s)", where [N] is the quotient of the gap by 24h, its
    floor: [N * 24h <= gap < (N + 1) * 24h].  The noun is "day" when [N = 1]
    and "days" otherwise.  A gap of exactly 10 days gives "expires in 10
    days". *)
Theorem expires_in_days (i : Item) (now : time.Time) :
  let g := time.Sub (end_ i) now in
  let N := g / (24 * time.Hour) in
  err i = None ->
  24 * time.Hour <= g <= Rev30.expiryThreshold ->
  Rev30.expiryInfo (end_ i) now
  = "expires in " ++ fmt.decimal N ++ " " ++ (if N =? 1 then "day" else "days") /\
  Z.quot g (24 * time.Hour) = N /\
  N * (24 * time.Hour) <= g < (N + 1) * (24 * time.Hour) /\
  1 <= N <= 30 /\
  (g = 10 * (24 * time.Hour) ->
     Rev30.expiryInfo (end_ i) now = "expires in 10 days") /\
  (N = 1 -> Rev30.expiryInfo (end_ i) now = "expires in 1 day").
Proof.
  cbv zeta. fold day. intros _ G.
  pose proof (expiryInfo30_days (end_ i) now G) as E.
  assert (D : 0 < day) by reflexivity.
  assert (T : Rev30.expiryThreshold = 30 * day) by reflexivity.
  pose proof (Z.mul_div_le (time.Sub (end_ i) now) day D) as L.
  pose proof (Z.mul_succ_div_gt (time.Sub (end_ i) now) day D) as U.
  repeat split.
  - exact E.
  - apply Z.quot_div_nonneg; lia.
  - lia.
  - lia.
  - apply Z.div_le_lower_bound; lia.
  - apply Z.div_le_upper_bound; lia.
  - intros G10. rewrite E, G10. reflexivity.
  - intros N1. rewrite E, N1. reflexivity.
Qed.

Lemma expires_in_days_witness :
  Rev30.expiryInfo (1000 + 10 * day) 1000 = "expires in 10 days" /\
  Rev30.expiryInfo (1000 + 2 * day - 1) 1000 = "expires in 1 day".
Proof.
  destruct (expires_in_days (mkItem "a.example" (1000 + 10 * day) None) 1000
              eq_refl) as (_ & _ & _ & _ & H & _).
  { vm_compute. split; discriminate. }
  destruct (expires_in_days (mkItem "a.example" (1000 + 2 * day - 1) None) 1000
              eq_refl) as (_ & _ & _ & _ & _ & K).
  { vm_compute. split; discriminate. }
  split; [apply H | apply K]; reflexivity.
Defined.

(** C10.  The decision for one item agrees with its classification:
    [needsNotify] is false exactly when the item has no error and
    [expiryInfo] says "ok" ("good" in the revision with the 28-day
    threshold), which it says exactly for a gap above the threshold; an
    item with an error, or with any other classification, needs
    notification. *)
Theorem needsNotify_agrees (i : Item) (now : time.Time) :
  (Rev30.needsNotify i now = false
   <-> err i = None /\ Rev30.expiryInfo (end_ i) now = "ok") /\
  (Rev30.expiryInfo (end_ i) now = "ok"
   <-> time.Sub (end_ i) now > Rev30.expiryThreshold) /\
  (err i <> None \/ Rev30.expiryInfo (end_ i) now <> "ok"
   -> Rev30.needsNotify i now = true) /\
  (Rev28.needsNotify i now = false
   <-> err i = None /\ Rev28.expiryInfo (end_ i) now = "good") /\
  (Rev28.expiryInfo (end_ i) now = "good"
   <-> time.Sub (end_ i) now > Rev28.notifyExpiryThreshold) /\
  (err i <> None \/ Rev28.expiryInfo (end_ i) now <> "good"
   -> Rev28.needsNotify i now = true).
Proof.
  assert (A : forall b : bool, b <> false -> b = true)
    by (intros [|] H; [reflexivity | now elim H]).
  split; [|split; [|split; [|split; [|split]]]].
  - rewrite needsNotify30_false, expiryInfo30_ok_iff. reflexivity.
  - apply expiryInfo30_ok_iff.
  - intros H. apply A. rewrite needsNotify30_false, <- expiryInfo30_ok_iff. tauto.
  - rewrite needsNotify28_false, expiryInfo28_good_iff. reflexivity.
  - apply expiryInfo28_good_iff.
  - intros H. apply A. rewrite needsNotify28_false, <- expiryInfo28_good_iff. tauto.
Qed.

Lemma needsNotify_agrees_witness :
  Rev30.needsNotify (mkItem "b.example" 0 (Some (mkError "timeout"))) 1000 = true /\
  Rev30.needsNotify (mkItem "a.example" (1000 + 10 * day) None) 1000 = true /\
  Rev28.needsNotify (mkItem "a.example" (1000 + 10 * day) None) 1000 = true.
Proof.
  destruct (needsNotify_agrees (mkItem "b.example" 0 (Some (mkError "timeout"))) 1000)
    as (_ & _ & E & _).
  destruct (needsNotify_agrees (mkItem "a.example" (1000 + 10 * day) None) 1000)
    as (_ & _ & A & _ & _ & B).
  split; [|split].
  - apply E. left. discriminate.
  - apply A. right. vm_compute. discriminate.
  - apply B. right. vm_compute. discriminate.
Defined.

(** ** The report body *)

Lemma newlines_app (a b : string) :
  newlines (a ++ b) = (newlines a + newlines b)%nat.
Proof.
  induction a as [|c a IH]; simpl; [reflexivity | rewrite IH; lia].
Qed.

Lemma newlines_uint (d : Decimal.uint) :
  newlines (NilEmpty.string_of_uint d) = 0%nat.
Proof.
  induction d; simpl; assumption || reflexivity.
Qed.

Lemma newlines_decimal (n : Z) : newlines (fmt.decimal n) = 0%nat.
Proof.
  unfold fmt.decimal.
  destruct (Z.to_int n) as [d|d]; simpl;
    destruct d; simpl; try reflexivity; apply newlines_uint.
Qed.

Lemma newlines_expiryInfo30 (e now : time.Time) :
  newlines (Rev30.expiryInfo e now) = 0%nat.
Proof.
  destruct (buckets_cover (time.Sub e now) Rev30.expiryThreshold) as
    [(G & _)|[(G & _)|[(G & _)|(G & _)]]]; [discriminate | | | |].
  - now rewrite expiryInfo30_ok.
  - now rewrite expiryInfo30_expired.
  - now rewrite expiryInfo30_lt_day.
  - rewrite expiryInfo30_days by assumption.
    rewrite !newlines_app, newlines_decimal.
    now destruct (time.Sub e now / day =? 1).
Qed.

Lemma newlines_expiryInfo28 (e now : time.Time) :
  newlines (Rev28.expiryInfo e now) = 0%nat.
Proof.
  destruct (buckets_cover (time.Sub e now) Rev28.notifyExpiryThreshold) as
    [(G & _)|[(G & _)|[(G & _)|(G & _)]]]; [discriminate | | | |].
  - now rewrite expiryInfo28_good.
  - now rewrite expiryInfo28_expired.
  - now rewrite expiryInfo28_lt_day.
  - rewrite expiryInfo28_days by assumption.
    rewrite !newlines_app, newlines_decimal.
    now destruct (time.Sub e now / day =? 1).
Qed.

(** The loop that writes the body, from any content of the buffer. *)
Lemma render_fold (f : Item -> string) (items : list Item) (buf : bytes.Buffer) :
  fold_left (fun buf i => bytes.WriteByte (bytes.WriteString buf (f i)) newline)
    items buf
  = buf ++ concat (map (fun i => f i ++ String newline "") items).
Proof.
  revert buf. induction items as [|i items IH]; intros buf; simpl.
  - now rewrite append_empty_r.
  - rewrite IH. unfold bytes.WriteByte, bytes.WriteString.
    now rewrite !append_assoc.
Qed.

Lemma mailBody_lines (items : list Item) (now : time.Time) :
  Rev30.mailBody items now
  = concat (map (line (fun i => classification30 i now)) items).
Proof.
  unfold Rev30.mailBody. rewrite render_fold. unfold bytes.zero; simpl.
  f_equal. apply map_ext. intros i. unfold line.
  now rewrite format30_shape, !append_assoc.
Qed.

Lemma resultsBody_lines (items : list Item) (now : time.Time) :
  Rev28.resultsBody items now
  = concat (map (line (fun i => classification28 i now)) items).
Proof.
  unfold Rev28.resultsBody, bytes.String_. rewrite render_fold.
  unfold bytes.zero; simpl.
  f_equal. apply map_ext. intros i. unfold line.
  now rewrite format28_shape, !append_assoc.
Qed.

(** Lines whose domain and classification hold no newline have one newline
    each, the one that ends them. *)
Lemma newlines_lines (c : Item -> string) (items : list Item) :
  (forall i, In i items -> newlines (domain i) = 0%nat /\ newlines (c i) = 0%nat) ->
  newlines (concat (map (line c) items)) = List.length items.
Proof.
  induction items as [|i items IH]; intros H; simpl; [reflexivity|].
  rewrite newlines_app, IH by (intros j Hj; apply H; now right).
  destruct (H i (or_introl eq_refl)) as [Hd Hc].
  unfold line. rewrite !newlines_app, Hd, Hc. reflexivity.
Qed.

(** C3.  The report body is the concatenation, in the order of the items
    and with nothing else, of one line per item: the domain, a colon and a
    space, the classification, a newline.  So it has the items' number of
    lines, the line of index [k] is that of the item of index [k], and when
    no domain and no error description holds a newline the body has exactly
    as many newline characters as there are items.  This holds for every
    list, the non-empty ones with an item that needs notification among
    them. *)
Theorem report_body (items : list Item) (now : time.Time) :
  let line30 := fun i =>
    domain i ++ ": " ++ classification30 i now ++ String newline "" in
  let line28 := fun i =>
    domain i ++ ": " ++ classification28 i now ++ String newline "" in
  bytes.String_ (Rev30.mailBody items now) = concat (map line30 items) /\
  Rev28.resultsBody items now = concat (map line28 items) /\
  List.length (map line30 items) = List.length items /\
  (forall k i, nth_error items k = Some i ->
     nth_error (map line30 items) k = Some (line30 i)) /\
  ((forall i, In i items ->
      newlines (domain i) = 0%nat /\
      forall e, err i = Some e -> newlines (Error e) = 0%nat) ->
   newlines (bytes.String_ (Rev30.mailBody items now)) = List.length items /\
   newlines (Rev28.resultsBody items now) = List.length items).
Proof.
  intros line30 line28. split; [|split; [|split; [|split]]].
  - exact (mailBody_lines items now).
  - exact (resultsBody_lines items now).
  - apply length_map.
  - intros k i H. now apply (map_nth_error line30).
  - intros H. unfold bytes.String_.
    rewrite mailBody_lines, resultsBody_lines. split.
    + apply newlines_lines. intros i Hi. destruct (H i Hi) as [Hd He].
      split; [exact Hd|]. unfold classification30.
      destruct (err i) as [e|]; [now apply He | apply newlines_expiryInfo30].
    + apply newlines_lines. intros i Hi. destruct (H i Hi) as [Hd He].
      split; [exact Hd|]. unfold classification28.
      destruct (err i) as [e|]; [now apply He | apply newlines_expiryInfo28].
Qed.

Lemma report_body_witness :
  newlines (Rev30.mailBody
              [mkItem "a.example" (1000 + 60 * day) None;
               mkItem "b.example" time.zero (Some (mkError "timeout"))] 1000)
  = 2%nat.
Proof.
  destruct (report_body
              [mkItem "a.example" (1000 + 60 * day) None;
               mkItem "b.example" time.zero (Some (mkError "timeout"))] 1000)
    as (_ & _ & _ & _ & H).
  apply H.
  intros i [<-|[<-|[]]]; (split; [reflexivity|]); intros e [= <-]; reflexivity.
Defined.

(** The first concrete scenario of the specification: ["a.example"] expires
    in 60 days and the probe of ["b.example"] timed out. *)
Example scenario_1 :
  Rev30.mailBody
    [mkItem "a.example" (1000 + 60 * day) None;
     mkItem "b.example" time.zero (Some (mkError "timeout"))] 1000
  = "a.example: ok" ++ String newline ("b.example: timeout" ++ String newline "").
Proof. reflexivity. Qed.

(** C9.  Rendering is a function of the items and of [now] alone: equal
    items and equal times give the same line for an item and the same body,
    byte for byte, and whatever the world [notify] runs in, it hands mail(1)
    this one body. *)
Theorem rendering_idempotent (items items' : list Item) (now now' : time.Time)
  (env : Env) (recipient : string) (w w' : World) :
  items = items' ->
  now = now' ->
  Rev30.mailBody items now = Rev30.mailBody items' now' /\
  map (fun i => Rev30.format i now) items
  = map (fun i => Rev30.format i now') items' /\
  Ran (snd (Rev30.notify env items now recipient w))
  = (Ran w ++ [(mailArgv recipient, Rev30.mailBody items now)])%list /\
  Ran (snd (Rev30.notify env items' now' recipient w'))
  = (Ran w' ++ [(mailArgv recipient, Rev30.mailBody items now)])%list.
Proof.
  intros <- <-. repeat split.
Qed.

Lemma rendering_idempotent_witness :
  Rev30.mailBody [mkItem "a.example" (1000 + 10 * day) None] 1000
  = Rev30.mailBody [mkItem "a.example" (1000 + 10 * day) None] 1000.
Proof.
  exact (proj1 (rendering_idempotent
                  [mkItem "a.example" (1000 + 10 * day) None]
                  [mkItem "a.example" (1000 + 10 * day) None] 1000 1000
                  (mkEnv [] 0 (mkReader [] None)
                     (fun _ _ => DialError (mkError "timeout")) (fun _ _ => None))
                  "root" world0 world0 eq_refl eq_refl)).
Defined.

(** ** The probe *)

Lemma check_run (net : string -> DialResult) (d : string) (w : World) :
  Rev30.check net d w
  = (Done (certEnd (net (address d))), dialedMore w [address d]).
Proof.
  unfold Rev30.check, bind, DialContext. rewrite Sprintf_address.
  fold (address d). fold (dialedMore w [address d]).
  destruct (net (address d)) as [e|[|leaf rest]]; reflexivity.
Qed.

Lemma getCertEnd_run (net : string -> DialResult) (d : string) (w : World) :
  Rev28.getCertEnd net d w
  = (Done (certEnd (net (address d))), dialedMore w [address d]).
Proof.
  unfold Rev28.getCertEnd, bind, DialContext. rewrite Sprintf_address.
  fold (address d). fold (dialedMore w [address d]).
  destruct (net (address d)) as [e|[|leaf rest]]; reflexivity.
Qed.

(** C7.  [check] dials the domain on port 443 and returns.  When the
    handshake succeeded and the peer presented no certificate, it returns
    the error "no peer certificates", made by [check] itself and not by the
    dialer, whose error is returned as it is when dialing failed.
    Otherwise it returns the [NotAfter] of the first certificate and no
    error; nothing else of the chain decides the result.  Either the error
    is nil and the time is that [NotAfter], or there is an error and the
    time is the zero time. *)
Theorem probe_result (net : string -> DialResult) (d : string) (w : World) :
  let r := fst (Rev30.check net d w) in
  (net (d ++ ":443") = Connected [] ->
     r = Done (time.zero, Some (errors.New "no peer certificates")) /\
     Error (errors.New "no peer certificates") = "no peer certificates") /\
  (forall leaf rest, net (d ++ ":443") = Connected (leaf :: rest) ->
     r = Done (NotAfter leaf, None)) /\
  (forall e, net (d ++ ":443") = DialError e -> r = Done (time.zero, Some e)) /\
  (forall net' w' leaf rest leaf' rest',
     net (d ++ ":443") = Connected (leaf :: rest) ->
     net' (d ++ ":443") = Connected (leaf' :: rest') ->
     NotAfter leaf = NotAfter leaf' ->
     fst (Rev30.check net' d w') = r) /\
  (exists t e, r = Done (t, e) /\
     ((e = None /\
       exists leaf rest,
         net (d ++ ":443") = Connected (leaf :: rest) /\ t = NotAfter leaf) \/
      (e <> None /\ t = time.zero))) /\
  Dialed (snd (Rev30.check net d w)) = (Dialed w ++ [(d ++ ":443")%string])%list.
Proof.
  intros r. subst r. fold (address d).
  split; [|split; [|split; [|split; [|split]]]].
  - intros H. rewrite check_run, H. split; reflexivity.
  - intros leaf rest H. rewrite check_run, H. reflexivity.
  - intros e H. rewrite check_run, H. reflexivity.
  - intros net' w' leaf rest leaf' rest' H H' E.
    rewrite !check_run, H, H'. simpl. now rewrite E.
  - rewrite check_run. simpl.
    destruct (net (address d)) as [e|[|leaf rest]]; simpl.
    + exists time.zero, (Some e). split; [reflexivity|].
      right. split; [discriminate | reflexivity].
    + exists time.zero, (Some (errors.New "no peer certificates")).
      split; [reflexivity|]. right. split; [discriminate | reflexivity].
    + exists (NotAfter leaf), None. split; [reflexivity|].
      left. split; [reflexivity|]. now exists leaf, rest.
  - rewrite check_run. reflexivity.
Qed.

Lemma probe_result_witness :
  fst (Rev30.check (fun _ => Connected []) "a.example" world0)
  = Done (time.zero, Some (errors.New "no peer certificates")) /\
  fst (Rev30.check
         (fun _ => Connected [mkCertificate "a.example" "ca" 7 (1000 + 10 * day);
                              mkCertificate "ca" "root" 7 99]) "a.example" world0)
  = Done (1000 + 10 * day, None).
Proof.
  split.
  - destruct (probe_result (fun _ => Connected []) "a.example" world0) as (H & _).
    exact (proj1 (H eq_refl)).
  - destruct (probe_result
                (fun _ => Connected [mkCertificate "a.example" "ca" 7 (1000 + 10 * day);
                                     mkCertificate "ca" "root" 7 99])
                "a.example" world0) as (_ & H & _).
    exact (H _ _ eq_refl).
Defined.

(** ** The run *)

Lemma dialedMore_nil (w : World) : dialedMore w [] = w.
Proof.
  destruct w. unfold dialedMore; simpl. now rewrite app_nil_r.
Qed.

Lemma dialedMore_app (w : World) (a b : list string) :
  dialedMore (dialedMore w a) b = dialedMore w (a ++ b).
Proof.
  unfold dialedMore; simpl. now rewrite app_assoc.
Qed.

Lemma store_app {A : Type} (pre post : list A) (x v : A) :
  store (pre ++ x :: post) (List.length pre) v = (pre ++ v :: post)%list.
Proof.
  induction pre as [|y pre IH]; simpl; [reflexivity | now rewrite IH].
Qed.

(** The goroutines fill the slots with the probe results, each slot with
    the result of the domain of the same index, and no index is out of
    range. *)
Lemma probe_slots30 (env : Env) (ds : list string) :
  forall (suffix pre : list string) (filled : list Item) (w : World),
    ds = (pre ++ suffix)%list ->
    List.length filled = List.length pre ->
    Rev30.spawn env ds (seq (List.length pre) (List.length suffix))
      (filled ++ repeat zeroItem (List.length suffix)) w
    = (Done (filled ++ resultsFrom env (List.length pre) suffix)%list,
       dialedMore w (map address suffix)).
Proof.
  induction suffix as [|d suffix IH]; intros pre filled w Hds Hlen; simpl.
  - now rewrite dialedMore_nil.
  - unfold bind at 1. unfold Rev30.worker, bind. rewrite check_run.
    unfold ret. rewrite Hds, nth_middle, <- Hlen, store_app.
    set (v := mkItem d _ _).
    specialize (IH (pre ++ [d])%list (filled ++ [v])%list
                  (dialedMore w [address d])).
    rewrite !length_app, <- !app_assoc in IH. simpl in IH.
    rewrite !Nat.add_1_r, <- Hlen in IH.
    rewrite <- Hds, IH by (assumption || reflexivity).
    now rewrite dialedMore_app.
Qed.

Lemma probe_slots28 (env : Env) (ds : list string) :
  forall (suffix pre : list string) (filled : list Item) (w : World),
    ds = (pre ++ suffix)%list ->
    List.length filled = List.length pre ->
    Rev28.spawn env ds (seq (List.length pre) (List.length suffix))
      (filled ++ repeat zeroItem (List.length suffix)) w
    = (Done (filled ++ resultsFrom env (List.length pre) suffix)%list,
       dialedMore w (map address suffix)).
Proof.
  induction suffix as [|d suffix IH]; intros pre filled w Hds Hlen; simpl.
  - now rewrite dialedMore_nil.
  - unfold bind at 1. unfold Rev28.worker, bind. rewrite getCertEnd_run.
    unfold ret. rewrite Hds, nth_middle, <- Hlen, store_app.
    set (v := mkItem d _ _).
    specialize (IH (pre ++ [d])%list (filled ++ [v])%list
                  (dialedMore w [address d])).
    rewrite !length_app, <- !app_assoc in IH. simpl in IH.
    rewrite !Nat.add_1_r, <- Hlen in IH.
    rewrite <- Hds, IH by (assumption || reflexivity).
    now rewrite dialedMore_app.
Qed.

Lemma all_true {E : Type} (s : list E) (f : E -> bool) :
  all s f = true <-> forall v, In v s -> f v = true.
Proof.
  induction s as [|x s IH]; simpl.
  - split; [intros _ v [] | reflexivity].
  - destruct (f x) eqn:Fx; simpl.
    + rewrite IH. split.
      * intros H v [<-|Hv]; [exact Fx | now apply H].
      * intros H v Hv. apply H. now right.
    + split; [discriminate|]. intros H.
      rewrite (H x (or_introl eq_refl)) in Fx. discriminate.
Qed.

Lemma all_false {E : Type} (s : list E) (f : E -> bool) :
  all s f = false <-> exists v, In v s /\ f v = false.
Proof.
  induction s as [|x s IH]; simpl.
  - split; [discriminate | intros (v & [] & _)].
  - destruct (f x) eqn:Fx; simpl.
    + rewrite IH. split.
      * intros (v & Hv & Fv). exists v. split; [now right | exact Fv].
      * intros (v & [<-|Hv] & Fv); [congruence | now exists v].
    + split; [|reflexivity]. intros _. exists x. split; [now left | exact Fx].
Qed.

Lemma read_fold (f : string -> string) (lines out : list string) :
  fold_left (fun out text => (out ++ [f text])%list) lines out
  = (out ++ map f lines)%list.
Proof.
  revert out. induction lines as [|l lines IH]; intros out; simpl.
  - now rewrite app_nil_r.
  - now rewrite IH, <- app_assoc.
Qed.

Lemma domains30_read (TrimSpace : string -> string) (r : Reader) :
  ScanErr r = None ->
  Rev30.domains TrimSpace r = (map TrimSpace (Lines r), None).
Proof.
  intros H. unfold Rev30.domains. now rewrite H, read_fold.
Qed.

Lemma domains30_failed (TrimSpace : string -> string) (r : Reader) (e : error) :
  ScanErr r = Some e -> Rev30.domains TrimSpace r = ([], Some e).
Proof.
  intros H. unfold Rev30.domains. now rewrite H.
Qed.

(** A run that gets one argument and reads at least one domain without
    error: the probes, then the decision. *)
Lemma main30_probed (TrimSpace : string -> string) (env : Env) (recipient : string) :
  Args env = [recipient] ->
  ScanErr (Stdin env) = None ->
  Lines (Stdin env) <> [] ->
  let ds := map TrimSpace (Lines (Stdin env)) in
  let items := resultsFrom env 0 ds in
  let w := dialedMore world1 (map address ds) in
  let body := Rev30.mailBody items (Now env) in
  let ran := [(mailArgv recipient, bytes.String_ body)] in
  Rev30.main TrimSpace env world0
  = if all items (fun i => negb (Rev30.needsNotify i (Now env))) then (Exit 0, w)
    else
      match MailRun env recipient (bytes.String_ body) with
      | Some e =>
          (Exit 1,
           mkWorld ("notafter: " ++ Error e ++
                    (if endsWithNewline (Error e) then "" else String newline ""))
             "" (Dialed w) ran (std w))
      | None => (Done tt, mkWorld "" "" (Dialed w) ran (std w))
      end.
Proof.
  intros Ha Hs Hl ds items w body ran.
  unfold Rev30.main, bind, log.SetPrefix, log.SetFlags. simpl.
  rewrite Ha, domains30_read by assumption. simpl. fold ds.
  assert (N : Nat.eqb (List.length ds) 0 = false).
  { subst ds. destruct (Lines (Stdin env)); [now elim Hl | reflexivity]. }
  rewrite N.
  pose proof (probe_slots30 env ds ds [] [] world1 eq_refl eq_refl) as P.
  simpl in P. fold world1. rewrite P. fold items. fold w.
  destruct (all items _); [reflexivity|].
  unfold Rev30.notify, Rev30.sendMail, Run. fold body. fold (mailArgv recipient).
  destruct (MailRun env recipient (bytes.String_ body)) as [e|]; reflexivity.
Qed.

(** C2.  The decision of a run is [all(items, noNotify)]: it is false, and
    notification needed, exactly when some item has an error or a gap at
    most the threshold.  In a run that probed its domains and found every
    result without error and with a gap above the threshold, nothing is
    written to standard output or standard error, no command is run, and the
    process exits with status 0; in a run that found another result, mail(1)
    is run once, with the body rendered from the results. *)
Theorem notify_decision (TrimSpace : string -> string) (env : Env)
  (recipient : string) :
  let now := Now env in
  let noNotify := fun i => negb (Rev30.needsNotify i now) in
  let fine := fun i =>
    err i = None /\ time.Sub (end_ i) now > Rev30.expiryThreshold in
  (forall items : list Item,
     all items noNotify = false
     <-> exists i, In i items /\
           (err i <> None \/ time.Sub (end_ i) now <= Rev30.expiryThreshold)) /\
  (forall items : list Item,
     all items noNotify = true <-> forall i, In i items -> fine i) /\
  (Args env = [recipient] ->
   ScanErr (Stdin env) = None ->
   Lines (Stdin env) <> [] ->
   let items := resultsFrom env 0 (map TrimSpace (Lines (Stdin env))) in
   let r := Rev30.main TrimSpace env world0 in
   ((forall i, In i items -> fine i) ->
      fst r = Exit 0 /\ status r = 0 /\
      Stdout (snd r) = "" /\ Stderr (snd r) = "" /\ Ran (snd r) = []) /\
   (~ (forall i, In i items -> fine i) ->
      Ran (snd r) = [(mailArgv recipient, bytes.String_ (Rev30.mailBody items now))])).
Proof.
  intros now noNotify fine.
  assert (T : forall items, all items noNotify = true <-> forall i, In i items -> fine i).
  { intros items. rewrite all_true. subst noNotify fine. simpl.
    split; intros H i Hi.
    - apply needsNotify30_false. specialize (H i Hi).
      now destruct (Rev30.needsNotify i now).
    - specialize (H i Hi). apply needsNotify30_false in H. now rewrite H. }
  split; [|split; [exact T|]].
  - intros items. rewrite all_false. subst noNotify. simpl.
    split; intros (i & Hi & H); exists i; (split; [exact Hi|]).
    + destruct (err i) as [e|] eqn:He; [left; discriminate | right].
      destruct (Z_le_gt_dec (time.Sub (end_ i) now) Rev30.expiryThreshold) as [L|G];
        [exact L|].
      assert (F : Rev30.needsNotify i now = false)
        by (apply needsNotify30_false; now split).
      rewrite F in H. discriminate.
    + destruct (Rev30.needsNotify i now) eqn:N; [reflexivity|].
      apply needsNotify30_false in N. destruct N as [He G].
      destruct H as [H|H]; [now elim H | lia].
  - intros Ha Hs Hl items r. subst r.
    rewrite (main30_probed TrimSpace env recipient Ha Hs Hl). cbv zeta.
    fold items. fold now. fold noNotify.
    destruct (T items) as [T1 T2].
    split; intros H.
    + rewrite (T2 H). repeat split.
    + destruct (all items noNotify) eqn:A; [elim H; now apply T1|].
      destruct (MailRun env recipient _); reflexivity.
Qed.

Lemma notify_decision_witness :
  let env :=
    mkEnv ["root"] 1000 (mkReader ["a.example"] None)
      (fun _ _ => Connected [mkCertificate "a.example" "ca" 7 (1000 + 60 * day)])
      (fun _ _ => None) in
  fst (Rev30.main (fun s => s) env world0) = Exit 0 /\
  Ran (snd (Rev30.main (fun s => s) env world0)) = [].
Proof.
  intros env.
  destruct (notify_decision (fun s => s) env "root") as (_ & _ & H).
  destruct H as [H _]; [reflexivity | reflexivity | discriminate |].
  destruct H as (E & _ & _ & _ & R).
  - intros i [<-|[]]. split; reflexivity.
  - split; [exact E | exact R].
Defined.

(** C8.  A run that reads no domain is fatal before any probe: the exit
    status is not 0, a message is on standard error, no address is dialed,
    nothing is written to standard output and no command is run.  With one
    argument and no read error the message is "notafter: no domains" and the
    status is 1. *)
Theorem no_domains_is_fatal (TrimSpace : string -> string) (env : Env) :
  fst (Rev30.domains TrimSpace (Stdin env)) = [] ->
  let r := Rev30.main TrimSpace env world0 in
  status r <> 0 /\
  Stderr (snd r) <> "" /\
  Dialed (snd r) = [] /\
  Stdout (snd r) = "" /\
  Ran (snd r) = [] /\
  (List.length (Args env) = 1%nat ->
   ScanErr (Stdin env) = None ->
   fst r = Exit 1 /\
   Stderr (snd r) = "notafter: no domains" ++ String newline "").
Proof.
  intros He r. subst r.
  unfold Rev30.main, bind, log.SetPrefix, log.SetFlags. simpl.
  destruct (Nat.eqb (List.length (Args env)) 1) eqn:Ha; simpl.
  - destruct (Rev30.domains TrimSpace (Stdin env)) as [ds e] eqn:Hd.
    simpl in He. subst ds.
    destruct e as [e|]; simpl.
    + split; [|split; [|split; [|split; [|split]]]];
        try discriminate; try reflexivity.
      intros _ Hs. rewrite domains30_read in Hd by assumption. discriminate.
    + split; [|split; [|split; [|split; [|split]]]];
        try discriminate; try reflexivity.
      intros _ _. split; reflexivity.
  - split; [|split; [|split; [|split; [|split]]]];
      try discriminate; try reflexivity.
    intros Hl. rewrite Hl in Ha. discriminate.
Qed.

Lemma no_domains_is_fatal_witness :
  let env :=
    mkEnv ["root"] 1000 (mkReader [] None)
      (fun _ _ => DialError (mkError "timeout")) (fun _ _ => None) in
  fst (Rev30.main (fun s => s) env world0) = Exit 1 /\
  Stderr (snd (Rev30.main (fun s => s) env world0))
  = "notafter: no domains" ++ String newline "" /\
  Dialed (snd (Rev30.main (fun s => s) env world0)) = [].
Proof.
  intros env.
  destruct (no_domains_is_fatal (fun s => s) env eq_refl)
    as (_ & _ & D & _ & _ & H).
  destruct (H eq_refl eq_refl) as [E M].
  split; [exact E | split; [exact M | exact D]].
Defined.

(** ** The revision with the 28-day threshold *)

(** X21.  The classification of the revision with the 28-day threshold:
    the description of the error when there is one; otherwise "good" for a
    gap above 28 days, "expired" for a negative gap, "expires in less than
    24h" for a gap from 0 up to 24h, and "expires in N day(s)" from 24h up
    to the threshold.  The conditions are those of the table of the other
    revision, with the threshold and the wording of this one. *)
Lemma rev28_table (i : Item) (now : time.Time) :
  let g := time.Sub (end_ i) now in
  let T := Rev28.notifyExpiryThreshold in
  (forall e, err i = Some e ->
     Rev28.format i now = domain i ++ ": " ++ Error e) /\
  (err i = None ->
     Rev28.format i now = domain i ++ ": " ++ Rev28.expiryInfo (end_ i) now /\
     (g > T -> Rev28.expiryInfo (end_ i) now = "good") /\
     (g < 0 -> Rev28.expiryInfo (end_ i) now = "expired") /\
     (0 <= g < 24 * time.Hour ->
        Rev28.expiryInfo (end_ i) now = "expires in less than 24h") /\
     (24 * time.Hour <= g <= T ->
        Rev28.expiryInfo (end_ i) now
        = "expires in " ++ fmt.decimal (g / (24 * time.Hour)) ++ " "
            ++ (if g / (24 * time.Hour) =? 1 then "day" else "days"))).
Proof.
  cbv zeta. fold day. split.
  - intros e He. rewrite format28_shape. unfold classification28. now rewrite He.
  - intros He. split; [|split; [|split; [|split]]].
    + rewrite format28_shape. unfold classification28. now rewrite He.
    + apply expiryInfo28_good.
    + apply expiryInfo28_expired.
    + apply expiryInfo28_lt_day.
    + apply expiryInfo28_days.
Qed.

Lemma domains28_read (TrimSpace : string -> string) (r : Reader) :
  Rev28.domains TrimSpace r = (map TrimSpace (Lines r), ScanErr r).
Proof.
  unfold Rev28.domains. now rewrite read_fold.
Qed.

(** A run of this revision that probed its domains: when notification is
    needed the body is written to standard output, then handed to mail(1). *)
Lemma main28_probed (TrimSpace : string -> string) (env : Env) (recipient : string) :
  Args env = [recipient] ->
  ScanErr (Stdin env) = None ->
  Lines (Stdin env) <> [] ->
  let ds := map TrimSpace (Lines (Stdin env)) in
  let items := resultsFrom env 0 ds in
  let w := dialedMore world1 (map address ds) in
  let body := Rev28.resultsBody items (Now env) in
  let ran := [(mailArgv recipient, body)] in
  Rev28.main TrimSpace env world0
  = if all items (fun i => negb (Rev28.needsNotify i (Now env))) then (Exit 0, w)
    else
      match MailRun env recipient body with
      | Some e =>
          (Exit 1,
           mkWorld ("notafter: " ++ Error e ++
                    (if endsWithNewline (Error e) then "" else String newline ""))
             body (Dialed w) ran (std w))
      | None => (Done tt, mkWorld "" body (Dialed w) ran (std w))
      end.
Proof.
  intros Ha Hs Hl ds items w body ran.
  pose proof (domains28_read TrimSpace (Stdin env)) as Hd. rewrite Hs in Hd.
  unfold Rev28.main, bind, log.SetPrefix, log.SetFlags.
  cbv beta iota. rewrite Ha. cbn [List.length Nat.eqb negb nth].
  cbv beta iota. rewrite Hd. simpl. fold ds.
  assert (N : Nat.eqb (List.length ds) 0 = false).
  { subst ds. destruct (Lines (Stdin env)); [now elim Hl | reflexivity]. }
  rewrite N.
  pose proof (probe_slots28 env ds ds [] [] world1 eq_refl eq_refl) as P.
  simpl in P. fold world1. rewrite P. fold items. fold w.
  destruct (all items _); [reflexivity|].
  unfold Rev28.sendMail, Run, Print. fold body. fold (mailArgv recipient).
  simpl.
  destruct (MailRun env recipient body) as [e|]; reflexivity.
Qed.

(** ** Probe results *)

(** Each probe result keeps its domain, and either has no error and the
    [NotAfter] of the first certificate presented, or has an error and the
    zero time. *)
Lemma results_meaningful (env : Env) (ds : list string) :
  forall idx i, In i (resultsFrom env idx ds) ->
    In (domain i) ds /\
    ((err i = None /\
      exists k leaf rest,
        Dial env k (address (domain i)) = Connected (leaf :: rest) /\
        end_ i = NotAfter leaf) \/
     (err i <> None /\ end_ i = time.zero)).
Proof.
  induction ds as [|d ds IH]; intros idx i; simpl; [intros []|].
  intros [<-|Hi].
  - split; [now left|]. simpl.
    destruct (Dial env idx (address d)) as [e|[|leaf rest]] eqn:D; simpl.
    + right. split; [discriminate | reflexivity].
    + right. split; [discriminate | reflexivity].
    + left. split; [reflexivity|]. now exists idx, leaf, rest.
  - destruct (IH (S idx) i Hi) as [Hd H]. split; [now right | exact H].
Qed.

(** The results are in the order of the domains. *)
Lemma results_order (env : Env) (ds : list string) (idx : nat) :
  map domain (resultsFrom env idx ds) = ds.
Proof.
  revert idx. induction ds as [|d ds IH]; intros idx; simpl;
    [reflexivity | now rewrite IH].
Qed.

(** * Further properties of the code *)

(** ** [all], [pluralize], [domains] *)

Lemma all_forallb {E : Type} (s : list E) (f : E -> bool) :
  all s f = forallb f s.
Proof.
  induction s as [|x s IH]; simpl; [reflexivity|].
  rewrite IH. now destruct (f x).
Qed.

(** X1.  [all] is true exactly when the predicate holds of every element, so
    it is true of the empty slice; it is false exactly when some element
    fails; and over a concatenation it is the conjunction of the two parts. *)
Theorem all_characterised {E : Type} (s t : list E) (f : E -> bool) :
  (all s f = true <-> forall v, In v s -> f v = true) /\
  (all s f = false <-> exists v, In v s /\ f v = false) /\
  all (s ++ t) f = all s f && all t f /\
  all (@nil E) f = true.
Proof.
  split; [apply all_true | split; [apply all_false | split; [|reflexivity]]].
  now rewrite !all_forallb, forallb_app.
Qed.

Lemma append_length (a b : string) :
  String.length (a ++ b) = (String.length a + String.length b)%nat.
Proof.
  induction a as [|c a IH]; simpl; [reflexivity | now rewrite IH].
Qed.

(** X2.  [pluralize] returns the noun unchanged exactly when the count is 1;
    for every other count, zero and the negative ones included, it returns
    the noun with one more character, an "s" at the end. *)
Theorem pluralize_singular (n : Z) (noun : string) :
  (pluralize n noun = noun <-> n = 1) /\
  (n <> 1 -> pluralize n noun = noun ++ "s") /\
  (n <> 1 -> String.length (pluralize n noun) = S (String.length noun)).
Proof.
  unfold pluralize. destruct (Z.eqb_spec n 1) as [E|E].
  - split; [split; intros _; [exact E | reflexivity]|].
    split; intros H; now elim H.
  - split; [split; [|intros H; now elim E]|].
    + intros H. apply (f_equal String.length) in H.
      rewrite append_length in H. simpl in H. lia.
    + split; intros _; [reflexivity|].
      rewrite append_length. simpl. lia.
Qed.

Lemma pluralize_singular_witness :
  pluralize 0 "day" = "days" /\ String.length (pluralize (-1) "day") = 4%nat.
Proof.
  destruct (pluralize_singular 0 "day") as (_ & H & _).
  destruct (pluralize_singular (-1) "day") as (_ & _ & K).
  split; [apply H | apply K]; discriminate.
Defined.

(** X3.  [domains] of the revision with the 30-day threshold: when the
    scanner ends without error, one entry per line, the trimmed line, in the
    order of the lines and with none left out, blank ones included; when the
    scanner ends with an error, no entry at all and that error. *)
Theorem domains_one_per_line (TrimSpace : string -> string) (r : Reader) :
  (ScanErr r = None ->
     Rev30.domains TrimSpace r = (map TrimSpace (Lines r), None) /\
     List.length (fst (Rev30.domains TrimSpace r)) = List.length (Lines r) /\
     forall k text, nth_error (Lines r) k = Some text ->
       nth_error (fst (Rev30.domains TrimSpace r)) k = Some (TrimSpace text)) /\
  (forall e, ScanErr r = Some e -> Rev30.domains TrimSpace r = ([], Some e)) /\
  (snd (Rev30.domains TrimSpace r) <> None -> fst (Rev30.domains TrimSpace r) = []).
Proof.
  split; [|split].
  - intros H. rewrite domains30_read by assumption. simpl.
    split; [reflexivity|]. split; [apply length_map|].
    intros k text Hk. now apply map_nth_error.
  - intros e H. now apply domains30_failed.
  - destruct (ScanErr r) as [e|] eqn:H.
    + now rewrite (domains30_failed _ _ _ H).
    + rewrite domains30_read by assumption. intros N. now elim N.
Qed.

Lemma domains_one_per_line_witness :
  Rev30.domains (fun s => s) (mkReader ["a.example"; ""; "b.example"] None)
  = (["a.example"; ""; "b.example"], None) /\
  Rev30.domains (fun s => s)
    (mkReader ["a.example"] (Some (mkError "token too long")))
  = ([], Some (mkError "token too long")).
Proof.
  destruct (domains_one_per_line (fun s => s)
              (mkReader ["a.example"; ""; "b.example"] None)) as (H & _).
  destruct (domains_one_per_line (fun s => s)
              (mkReader ["a.example"] (Some (mkError "token too long"))))
    as (_ & K & _).
  split; [exact (proj1 (H eq_refl)) | exact (K _ eq_refl)].
Defined.

(** X4.  [domains] of the revision with the 28-day threshold returns the
    trimmed lines read, one per line and in order, together with the
    scanner's error: the lines read before an error are not dropped here.
    The two revisions return the same when there is no error. *)
Theorem domains28_keeps_lines (TrimSpace : string -> string) (r : Reader) :
  Rev28.domains TrimSpace r = (map TrimSpace (Lines r), ScanErr r) /\
  List.length (fst (Rev28.domains TrimSpace r)) = List.length (Lines r) /\
  (ScanErr r = None -> Rev28.domains TrimSpace r = Rev30.domains TrimSpace r) /\
  (ScanErr r <> None -> Lines r <> [] ->
     fst (Rev28.domains TrimSpace r) <> fst (Rev30.domains TrimSpace r)).
Proof.
  rewrite domains28_read. simpl. split; [reflexivity|].
  split; [apply length_map|]. split.
  - intros H. now rewrite domains30_read, H.
  - intros H L. destruct (ScanErr r) as [e|] eqn:S; [|now elim H].
    rewrite (domains30_failed _ _ _ S). simpl.
    destruct (Lines r); [now elim L | discriminate].
Qed.

Lemma domains28_keeps_lines_witness :
  fst (Rev28.domains (fun s => s)
         (mkReader ["a.example"] (Some (mkError "token too long"))))
  <> fst (Rev30.domains (fun s => s)
            (mkReader ["a.example"] (Some (mkError "token too long")))).
Proof.
  destruct (domains28_keeps_lines (fun s => s)
              (mkReader ["a.example"] (Some (mkError "token too long"))))
    as (_ & _ & _ & H).
  apply H; discriminate.
Defined.

(** ** Runs of [main] that end before the probes *)

Lemma endsWithNewline_app (a b : string) :
  b <> "" -> endsWithNewline (a ++ b) = endsWithNewline b.
Proof.
  intros H. induction a as [|c a IH]; [reflexivity|].
  simpl. destruct (a ++ b) eqn:E.
  - destruct a; simpl in E; [now elim H | discriminate].
  - exact IH.
Qed.

(** A message followed by the newline [log] adds when it has none ends in
    a newline. *)
Lemma terminated_line (s : string) :
  endsWithNewline (s ++ (if endsWithNewline s then "" else String newline ""))
  = true.
Proof.
  induction s as [|c s IH]; [reflexivity|].
  destruct s as [|c' s].
  - simpl. destruct (Ascii.eqb c newline) eqn:C; simpl;
      [now rewrite ?C | reflexivity].
  - exact IH.
Qed.





Lemma main30_read_error (TrimSpace : string -> string) (env : Env)
  (recipient : string) (e : error) :
  Args env = [recipient] ->
  ScanErr (Stdin env) = Some e ->
  Rev30.main TrimSpace env world0
  = (Exit 1, mkWorld (fatalLine (Error e)) "" [] [] (mkLogger "notafter: " 0)).
Proof.
  intros Ha Hs.
  pose proof (domains30_failed TrimSpace (Stdin env) e Hs) as Hd.
  unfold Rev30.main, bind, log.SetPrefix, log.SetFlags.
  cbv beta iota. rewrite Ha. cbn [List.length Nat.eqb negb nth].
  cbv beta iota. rewrite Hd. reflexivity.
Qed.

Lemma main28_read_error (TrimSpace : string -> string) (env : Env)
  (recipient : string) (e : error) :
  Args env = [recipient] ->
  ScanErr (Stdin env) = Some e ->
  Rev28.main TrimSpace env world0
  = (Exit 1, mkWorld (fatalLine (Error e)) "" [] [] (mkLogger "notafter: " 0)).
Proof.
  intros Ha Hs.
  pose proof (domains28_read TrimSpace (Stdin env)) as Hd. rewrite Hs in Hd.
  unfold Rev28.main, bind, log.SetPrefix, log.SetFlags.
  cbv beta iota. rewrite Ha. cbn [List.length Nat.eqb negb nth].
  cbv beta iota. rewrite Hd. reflexivity.
Qed.

(** X6.  When standard input cannot be read to its end, [main] of either
    revision logs the scanner's error, with the prefix "notafter: " and a
    final newline, and exits with status 1 before any probe: no address is
    dialed, nothing is written to standard output and no command is run,
    however many lines were read before the error. *)
Theorem read_error_is_fatal (TrimSpace : string -> string) (env : Env)
  (recipient : string) (e : error) :
  Args env = [recipient] ->
  ScanErr (Stdin env) = Some e ->
  let r30 := Rev30.main TrimSpace env world0 in
  let r28 := Rev28.main TrimSpace env world0 in
  let line :=
    "notafter: " ++ Error e ++
    (if endsWithNewline (Error e) then "" else String newline "") in
  (fst r30 = Exit 1 /\ Stderr (snd r30) = line /\ Stdout (snd r30) = "" /\
   Dialed (snd r30) = [] /\ Ran (snd r30) = []) /\
  (fst r28 = Exit 1 /\ Stderr (snd r28) = line /\ Stdout (snd r28) = "" /\
   Dialed (snd r28) = [] /\ Ran (snd r28) = []) /\
  endsWithNewline line = true.
Proof.
  intros Ha Hs r30 r28 line. subst r30 r28.
  rewrite (main30_read_error _ _ _ _ Ha Hs), (main28_read_error _ _ _ _ Ha Hs).
  split; [|split]; [repeat split | repeat split |].
  subst line.
  pose proof (terminated_line (Error e)) as G.
  rewrite endsWithNewline_app; [exact G|].
  intros N. rewrite N in G. discriminate.
Qed.

Lemma read_error_is_fatal_witness :
  let env :=
    mkEnv ["root"] 1000 (mkReader ["a.example"] (Some (mkError "token too long")))
      (fun _ _ => DialError (mkError "timeout")) (fun _ _ => None) in
  fst (Rev28.main (fun s => s) env world0) = Exit 1 /\
  Stderr (snd (Rev30.main (fun s => s) env world0))
  = "notafter: token too long" ++ String newline "".
Proof.
  intros env.
  destruct (read_error_is_fatal (fun s => s) env "root" (mkError "token too long")
              eq_refl eq_refl) as (A & B & _).
  split; [exact (proj1 B) | exact (proj1 (proj2 A))].
Defined.

(** ** Runs of [main] that probe *)

Lemma concat_app (a b : list string) : concat (a ++ b) = concat a ++ concat b.
Proof.
  induction a as [|s a IH]; simpl; [reflexivity | now rewrite IH, append_assoc].
Qed.

Lemma results_length (env : Env) (ds : list string) (idx : nat) :
  List.length (resultsFrom env idx ds) = List.length ds.
Proof.
  revert idx. induction ds as [|d ds IH]; intros idx; simpl;
    [reflexivity | now rewrite IH].
Qed.

Lemma results_nth (env : Env) (ds : list string) :
  forall idx k d, nth_error ds k = Some d ->
    nth_error (resultsFrom env idx ds) k
    = Some (mkItem d (fst (certEnd (Dial env (idx + k) (address d))))
                     (snd (certEnd (Dial env (idx + k) (address d))))).
Proof.
  induction ds as [|x ds IH]; intros idx [|k] d H; simpl in *; try discriminate.
  - injection H as <-. now rewrite Nat.add_0_r.
  - rewrite (IH (S idx) k d H). now rewrite Nat.add_succ_r.
Qed.

(** X7.  The goroutines of [main] leave in [items] one result per domain,
    at the index of the domain: for a dial that failed, the domain, the zero
    time and the dialer's error; for a handshake without certificates, the
    domain, the zero time and the error "no peer certificates"; otherwise
    the domain, the [NotAfter] of the first certificate and no error.  An
    error always comes with the zero time. *)
Theorem fan_in (env : Env) (ds : list string) (w : World) :
  exists items,
    fst (Rev30.spawn env ds (seq 0 (List.length ds))
           (repeat zeroItem (List.length ds)) w) = Done items /\
    List.length items = List.length ds /\
    map domain items = ds /\
    (forall k d, nth_error ds k = Some d ->
       (forall e, Dial env k (d ++ ":443") = DialError e ->
          nth_error items k = Some (mkItem d time.zero (Some e))) /\
       (Dial env k (d ++ ":443") = Connected [] ->
          nth_error items k
          = Some (mkItem d time.zero (Some (errors.New "no peer certificates")))) /\
       (forall leaf rest, Dial env k (d ++ ":443") = Connected (leaf :: rest) ->
          nth_error items k = Some (mkItem d (NotAfter leaf) None))) /\
    (forall i, In i items ->
       err i = None \/ (err i <> None /\ end_ i = time.zero)).
Proof.
  exists (resultsFrom env 0 ds).
  pose proof (probe_slots30 env ds ds [] [] w eq_refl eq_refl) as P.
  simpl in P. rewrite P. simpl.
  split; [reflexivity|]. split; [apply results_length|].
  split; [apply results_order|]. split.
  - intros k d H. pose proof (results_nth env ds 0 k d H) as N.
    simpl in N. unfold address in N.
    split; [|split].
    + intros e D. now rewrite N, D.
    + intros D. now rewrite N, D.
    + intros leaf rest D. now rewrite N, D.
  - intros i Hi. destruct (results_meaningful env ds 0 i Hi) as [_ [[H _]|H]];
      [now left | now right].
Qed.

Lemma fan_in_witness :
  exists items,
    fst (Rev30.spawn
           (mkEnv ["root"] 1000 (mkReader [] None)
              (fun _ _ => DialError (mkError "timeout")) (fun _ _ => None))
           ["a.example"] (seq 0 1) (repeat zeroItem 1) world0) = Done items /\
    nth_error items 0 = Some (mkItem "a.example" time.zero (Some (mkError "timeout"))).
Proof.
  destruct (fan_in
              (mkEnv ["root"] 1000 (mkReader [] None)
                 (fun _ _ => DialError (mkError "timeout")) (fun _ _ => None))
              ["a.example"] world0) as (items & R & _ & _ & H & _).
  exists items. split; [exact R|].
  destruct (H 0%nat "a.example" eq_refl) as (E & _).
  apply E. reflexivity.
Defined.

(** X8.  A run that probes dials each domain read exactly once, at the
    domain followed by ":443", whatever the results and whether or not
    mail(1) is run afterwards; this holds in both revisions. *)
Theorem one_dial_per_domain (TrimSpace : string -> string) (env : Env)
  (recipient : string) :
  Args env = [recipient] ->
  ScanErr (Stdin env) = None ->
  Lines (Stdin env) <> [] ->
  let ds := map TrimSpace (Lines (Stdin env)) in
  Permutation (Dialed (snd (Rev30.main TrimSpace env world0)))
    (map (fun d => d ++ ":443") ds) /\
  Permutation (Dialed (snd (Rev28.main TrimSpace env world0)))
    (map (fun d => d ++ ":443") ds) /\
  List.length (Dialed (snd (Rev30.main TrimSpace env world0)))
  = List.length (Lines (Stdin env)).
Proof.
  intros Ha Hs Hl ds.
  rewrite (main30_probed TrimSpace env recipient Ha Hs Hl).
  rewrite (main28_probed TrimSpace env recipient Ha Hs Hl).
  cbv zeta. fold ds.
  assert (D30 : forall a b : Outcome unit * World,
            Dialed (snd a) = map address ds -> Dialed (snd b) = map address ds ->
            forall c : bool, Dialed (snd (if c then a else b)) = map address ds)
    by (intros a b A B [|]; assumption).
  split; [|split].
  - rewrite D30; [reflexivity | reflexivity |].
    destruct (MailRun env recipient _); reflexivity.
  - rewrite D30; [reflexivity | reflexivity |].
    destruct (MailRun env recipient _); reflexivity.
  - rewrite D30; [subst ds; now rewrite !length_map | reflexivity |].
    destruct (MailRun env recipient _); reflexivity.
Qed.

Lemma one_dial_per_domain_witness :
  let env :=
    mkEnv ["root"] 1000 (mkReader ["a.example"; "b.example"] None)
      (fun _ _ => DialError (mkError "timeout")) (fun _ _ => None) in
  Permutation (Dialed (snd (Rev30.main (fun s => s) env world0)))
    ["a.example:443"; "b.example:443"].
Proof.
  intros env.
  destruct (one_dial_per_domain (fun s => s) env "root") as (H & _);
    [reflexivity | reflexivity | discriminate |].
  exact H.
Defined.

(** X9.  In the revision with the 30-day threshold, a run in which some
    result needs notification runs one command,
    [mail -s "notafter: domain cert expiries" <recipient>], with the body
    as its standard input, and writes nothing to standard output.  When the
    command succeeds [main] returns, status 0, with nothing on standard
    error; when it fails the error is logged and the status is 1. *)
Theorem delivery_decides_status (TrimSpace : string -> string) (env : Env)
  (recipient : string) :
  Args env = [recipient] ->
  ScanErr (Stdin env) = None ->
  Lines (Stdin env) <> [] ->
  let items := resultsFrom env 0 (map TrimSpace (Lines (Stdin env))) in
  let body := bytes.String_ (Rev30.mailBody items (Now env)) in
  let r := Rev30.main TrimSpace env world0 in
  all items (fun i => negb (Rev30.needsNotify i (Now env))) = false ->
  Ran (snd r)
  = [(["mail"; "-s"; "notafter: domain cert expiries"; recipient], body)] /\
  Stdout (snd r) = "" /\
  (MailRun env recipient body = None ->
     fst r = Done tt /\ status r = 0 /\ Stderr (snd r) = "") /\
  (forall e, MailRun env recipient body = Some e ->
     fst r = Exit 1 /\ status r = 1 /\
     Stderr (snd r)
     = "notafter: " ++ Error e ++
       (if endsWithNewline (Error e) then "" else String newline "")).
Proof.
  intros Ha Hs Hl items body r A. subst r.
  rewrite (main30_probed TrimSpace env recipient Ha Hs Hl). cbv zeta.
  fold items. rewrite A. fold body.
  destruct (MailRun env recipient body) as [e|].
  - split; [reflexivity|]. split; [reflexivity|]. split; [discriminate|].
    intros e' [= <-]. repeat split.
  - split; [reflexivity|]. split; [reflexivity|]. split; [|discriminate].
    intros _. repeat split.
Qed.

Lemma delivery_decides_status_witness :
  let env :=
    mkEnv ["root"] 1000 (mkReader ["a.example"] None)
      (fun _ _ => DialError (mkError "timeout"))
      (fun _ _ => Some (mkError "exit status 1")) in
  fst (Rev30.main (fun s => s) env world0) = Exit 1 /\
  Stderr (snd (Rev30.main (fun s => s) env world0))
  = "notafter: exit status 1" ++ String newline "".
Proof.
  intros env.
  destruct (delivery_decides_status (fun s => s) env "root")
    as (_ & _ & _ & H); [reflexivity | reflexivity | discriminate | reflexivity |].
  destruct (H (mkError "exit status 1") eq_refl) as (E & _ & M).
  split; [exact E | exact M].
Defined.

(** X10.  In the revision with the 28-day threshold, a run in which some
    result needs notification writes the body to standard output and runs
    mail(1) with the same body as standard input: what is printed is what
    is mailed, and it is on standard output also when mail(1) fails, in
    which case the error is logged and the status is 1.  A run in which no
    result needs notification prints nothing, runs no command and exits
    with status 0. *)
Theorem report_printed_then_mailed (TrimSpace : string -> string) (env : Env)
  (recipient : string) :
  Args env = [recipient] ->
  ScanErr (Stdin env) = None ->
  Lines (Stdin env) <> [] ->
  let items := resultsFrom env 0 (map TrimSpace (Lines (Stdin env))) in
  let body := Rev28.resultsBody items (Now env) in
  let r := Rev28.main TrimSpace env world0 in
  (all items (fun i => negb (Rev28.needsNotify i (Now env))) = false ->
     Stdout (snd r) = body /\
     Ran (snd r)
     = [(["mail"; "-s"; "notafter: domain cert expiries"; recipient], body)] /\
     (MailRun env recipient body = None ->
        fst r = Done tt /\ status r = 0 /\ Stderr (snd r) = "") /\
     (forall e, MailRun env recipient body = Some e ->
        fst r = Exit 1 /\
        Stderr (snd r)
        = "notafter: " ++ Error e ++
          (if endsWithNewline (Error e) then "" else String newline ""))) /\
  (all items (fun i => negb (Rev28.needsNotify i (Now env))) = true ->
     fst r = Exit 0 /\ Stdout (snd r) = "" /\ Stderr (snd r) = "" /\
     Ran (snd r) = []).
Proof.
  intros Ha Hs Hl items body r. subst r.
  rewrite (main28_probed TrimSpace env recipient Ha Hs Hl). cbv zeta.
  fold items. fold body. split; intros A; rewrite A.
  - destruct (MailRun env recipient body) as [e|].
    + split; [reflexivity|]. split; [reflexivity|]. split; [discriminate|].
      intros e' [= <-]. repeat split.
    + split; [reflexivity|]. split; [reflexivity|]. split; [|discriminate].
      intros _. repeat split.
  - repeat split.
Qed.

Lemma report_printed_then_mailed_witness :
  let env :=
    mkEnv ["root"] 1000 (mkReader ["a.example"] None)
      (fun _ _ => DialError (mkError "timeout"))
      (fun _ _ => Some (mkError "exit status 1")) in
  Stdout (snd (Rev28.main (fun s => s) env world0))
  = "a.example: timeout" ++ String newline "" /\
  fst (Rev28.main (fun s => s) env world0) = Exit 1.
Proof.
  intros env.
  destruct (report_printed_then_mailed (fun s => s) env "root")
    as (H & _); [reflexivity | reflexivity | discriminate |].
  destruct H as (O & _ & _ & F); [reflexivity|].
  split; [exact O | exact (proj1 (F _ eq_refl))].
Defined.

Lemma failed_probe_line (c : Item -> string) (items : list Item) (k : nat)
  (i : Item) :
  nth_error items k = Some i ->
  exists pre post, concat (map (line c) items) = pre ++ line c i ++ post.
Proof.
  intros H. destruct (nth_error_split items k H) as (l1 & l2 & -> & _).
  exists (concat (map (line c) l1)), (concat (map (line c) l2)).
  now rewrite map_app, concat_app.
Qed.

(** X11.  Failures to reach a domain do not fail the run: in both
    revisions, a run that probes and whose mail(1) succeeds ends with status
    0 whatever the dialer returned.  A domain whose dial failed is reported
    instead: mail(1) is run, and the body holds the line made of the domain,
    a colon and a space, the error's text and a newline. *)
Theorem probe_errors_are_mailed (TrimSpace : string -> string) (env : Env)
  (recipient : string) :
  Args env = [recipient] ->
  ScanErr (Stdin env) = None ->
  Lines (Stdin env) <> [] ->
  (forall body, MailRun env recipient body = None) ->
  let r30 := Rev30.main TrimSpace env world0 in
  let r28 := Rev28.main TrimSpace env world0 in
  status r30 = 0 /\ status r28 = 0 /\
  Stderr (snd r30) = "" /\ Stderr (snd r28) = "" /\
  (forall k d e,
     nth_error (map TrimSpace (Lines (Stdin env))) k = Some d ->
     Dial env k (d ++ ":443") = DialError e ->
     (exists pre post,
        Ran (snd r30)
        = [(mailArgv recipient,
            pre ++ (d ++ ": " ++ Error e ++ String newline "") ++ post)]) /\
     (exists pre post,
        Ran (snd r28)
        = [(mailArgv recipient,
            pre ++ (d ++ ": " ++ Error e ++ String newline "") ++ post)] /\
        Stdout (snd r28)
        = pre ++ (d ++ ": " ++ Error e ++ String newline "") ++ post)).
Proof.
  intros Ha Hs Hl Hm r30 r28. subst r30 r28.
  rewrite (main30_probed TrimSpace env recipient Ha Hs Hl).
  rewrite (main28_probed TrimSpace env recipient Ha Hs Hl).
  cbv zeta. rewrite !Hm.
  set (items := resultsFrom env 0 (map TrimSpace (Lines (Stdin env)))).
  split; [now destruct (all items _)|].
  split; [now destruct (all items _)|].
  split; [now destruct (all items _)|].
  split; [now destruct (all items _)|].
  intros k d e Hk Hd.
  pose proof (results_nth env _ 0 k d Hk) as N. fold items in N.
  simpl in N. unfold address in N. rewrite Hd in N. simpl in N.
  set (i := mkItem d time.zero (Some e)) in N.
  assert (A30 : all items (fun i => negb (Rev30.needsNotify i (Now env))) = false).
  { apply all_false. exists i. split; [eapply nth_error_In; exact N | reflexivity]. }
  assert (A28 : all items (fun i => negb (Rev28.needsNotify i (Now env))) = false).
  { apply all_false. exists i. split; [eapply nth_error_In; exact N | reflexivity]. }
  rewrite A30, A28. simpl. split.
  - destruct (failed_probe_line (fun i => classification30 i (Now env)) items k i N)
      as (pre & post & B).
    exists pre, post. unfold bytes.String_. now rewrite mailBody_lines, B.
  - destruct (failed_probe_line (fun i => classification28 i (Now env)) items k i N)
      as (pre & post & B).
    exists pre, post. now rewrite resultsBody_lines, B.
Qed.

Lemma probe_errors_are_mailed_witness :
  let env :=
    mkEnv ["root"] 1000 (mkReader ["a.example"] None)
      (fun _ _ => DialError (mkError "timeout")) (fun _ _ => None) in
  status (Rev30.main (fun s => s) env world0) = 0 /\
  status (Rev28.main (fun s => s) env world0) = 0.
Proof.
  intros env.
  destruct (probe_errors_are_mailed (fun s => s) env "root")
    as (A & B & _); [reflexivity | reflexivity | discriminate | reflexivity |].
  split; [exact A | exact B].
Defined.

(** X12.  The body a run hands to mail(1) is the concatenation of one line
    per domain read, in the order the domains were read, and of nothing
    else: there are as many lines as domains, and the line of index [k] is
    the domain of index [k], a colon and a space, the classification of its
    probe, and a newline.  The classification is the text of the dialer's
    error, or "no peer certificates", or what [expiryInfo] says of the
    [NotAfter] of the first certificate.  The order in which the probes
    finish has no part in it. *)
Theorem report_in_input_order (TrimSpace : string -> string) (env : Env)
  (recipient : string) :
  Args env = [recipient] ->
  ScanErr (Stdin env) = None ->
  Lines (Stdin env) <> [] ->
  let ds := map TrimSpace (Lines (Stdin env)) in
  let classify := fun (k : nat) (d : string) =>
    match Dial env k (d ++ ":443") with
    | DialError e => Error e
    | Connected [] => "no peer certificates"
    | Connected (leaf :: _) => Rev30.expiryInfo (NotAfter leaf) (Now env)
    end in
  Ran (snd (Rev30.main TrimSpace env world0)) <> [] ->
  exists lines : list string,
    Ran (snd (Rev30.main TrimSpace env world0))
    = [(["mail"; "-s"; "notafter: domain cert expiries"; recipient],
        concat lines)] /\
    List.length lines = List.length ds /\
    (forall k d, nth_error ds k = Some d ->
       nth_error lines k
       = Some (d ++ ": " ++ classify k d ++ String newline "")) /\
    (forall k, (List.length ds <= k)%nat -> nth_error lines k = None).
Proof.
  intros Ha Hs Hl ds classify.
  rewrite (main30_probed TrimSpace env recipient Ha Hs Hl). cbv zeta. fold ds.
  set (items := resultsFrom env 0 ds).
  destruct (all items _); [intros H; now elim H|]. intros _.
  exists (map (line (fun i => classification30 i (Now env))) items).
  assert (L : List.length (map (line (fun i => classification30 i (Now env))) items)
              = List.length ds)
    by (subst items; now rewrite length_map, results_length).
  split; [|split; [exact L|split]].
  - unfold bytes.String_. rewrite mailBody_lines.
    destruct (MailRun env recipient _); reflexivity.
  - intros k d Hk.
    pose proof (results_nth env ds 0 k d Hk) as N. fold items in N.
    simpl in N. unfold address in N.
    rewrite (map_nth_error _ _ _ N). f_equal.
    unfold line, classification30, classify. simpl.
    destruct (Dial env k (d ++ ":443")) as [e|[|leaf rest]]; reflexivity.
  - intros k Hk. apply nth_error_None. now rewrite L.
Qed.

Lemma report_in_input_order_witness :
  let env :=
    mkEnv ["root"] 1000 (mkReader ["b.example"; "a.example"] None)
      (fun _ d =>
         if String.eqb d "a.example:443"
         then Connected [mkCertificate "a.example" "ca" 7 (1000 + 10 * day)]
         else DialError (mkError "timeout"))
      (fun _ _ => None) in
  Ran (snd (Rev30.main (fun s => s) env world0))
  = [(["mail"; "-s"; "notafter: domain cert expiries"; "root"],
      "b.example: timeout" ++ String newline
        ("a.example: expires in 10 days" ++ String newline ""))].
Proof.
  intros env.
  destruct (report_in_input_order (fun s => s) env "root" eq_refl eq_refl
              ltac:(discriminate) ltac:(discriminate))
    as (lines & R & L & N & _).
  rewrite R.
  pose proof (N 0%nat "b.example" eq_refl) as N0.
  pose proof (N 1%nat "a.example" eq_refl) as N1.
  destruct lines as [|l0 [|l1 [|l2 lines]]]; try discriminate.
  injection N0 as ->. injection N1 as ->. reflexivity.
Defined.

(** ** The probe of the revision with the 28-day threshold *)

(** X13.  [getCertEnd] dials the domain on port 443, once.  A dial error is
    returned as it is, with the zero time; a handshake after which the peer
    presented no certificate gives the error "no peer certificates" and the
    zero time; otherwise the result is the [NotAfter] of the first
    certificate and no error.  It returns what [check] of the other
    revision returns and leaves the same world. *)
Theorem getCertEnd_result (net : string -> DialResult) (domain : string)
  (w : World) :
  let r := Rev28.getCertEnd net domain w in
  (forall e, net (domain ++ ":443") = DialError e ->
     fst r = Done (time.zero, Some e)) /\
  (net (domain ++ ":443") = Connected [] ->
     fst r = Done (time.zero, Some (errors.New "no peer certificates"))) /\
  (forall leaf rest, net (domain ++ ":443") = Connected (leaf :: rest) ->
     fst r = Done (NotAfter leaf, None)) /\
  Dialed (snd r) = (Dialed w ++ [(domain ++ ":443")%string])%list /\
  Stdout (snd r) = Stdout w /\ Stderr (snd r) = Stderr w /\ Ran (snd r) = Ran w /\
  r = Rev30.check net domain w.
Proof.
  intros r. subst r. rewrite getCertEnd_run, check_run. unfold address. simpl.
  split; [|split; [|split]].
  - intros e H. now rewrite H.
  - intros H. now rewrite H.
  - intros leaf rest H. now rewrite H.
  - repeat split.
Qed.

Lemma getCertEnd_result_witness :
  fst (Rev28.getCertEnd (fun _ => DialError (mkError "timeout")) "a.example" world0)
  = Done (time.zero, Some (mkError "timeout")).
Proof.
  destruct (getCertEnd_result (fun _ => DialError (mkError "timeout"))
              "a.example" world0) as (H & _).
  exact (H _ eq_refl).
Defined.

(** ** The classification as a function of time *)

Lemma Sub_shift (t u k : Z) : time.Sub (t + k) (u + k) = time.Sub t u.
Proof.
  unfold time.Sub. now replace (t + k - (u + k)) with (t - u) by lia.
Qed.

Lemma Sub_mono (t t' u u' : time.Time) :
  t <= t' -> u' <= u -> time.Sub t u <= time.Sub t' u'.
Proof.
  unfold time.Sub, time.minDuration, time.maxDuration; cbv zeta; intros H K.
  destruct (Z.ltb_spec (t - u) (- 2 ^ 63));
    [|destruct (Z.ltb_spec (2 ^ 63 - 1) (t - u))];
    (destruct (Z.ltb_spec (t' - u') (- 2 ^ 63));
      [|destruct (Z.ltb_spec (2 ^ 63 - 1) (t' - u'))]); lia.
Qed.

(** X14.  Only the distance between the expiry and [now] matters: moving
    both by the same amount changes neither the text of [expiryInfo], nor
    the decision of [needsNotify], nor the line of [format], nor the body
    of [mailBody]. *)
Theorem classification_is_relative (items : list Item) (i : Item)
  (now : time.Time) (k : Z) :
  Rev30.expiryInfo (end_ i + k) (now + k) = Rev30.expiryInfo (end_ i) now /\
  Rev30.needsNotify (shift k i) (now + k) = Rev30.needsNotify i now /\
  Rev30.format (shift k i) (now + k) = Rev30.format i now /\
  Rev30.mailBody (map (shift k) items) (now + k) = Rev30.mailBody items now.
Proof.
  assert (E : forall e n, Rev30.expiryInfo (e + k) (n + k) = Rev30.expiryInfo e n)
    by (intros; unfold Rev30.expiryInfo; now rewrite Sub_shift).
  assert (F : forall j, Rev30.format (shift k j) (now + k) = Rev30.format j now).
  { intros j. rewrite !format30_shape. unfold classification30, shift. simpl.
    destruct (err j); [reflexivity | now rewrite E]. }
  split; [apply E|]. split; [|split; [apply F|]].
  - unfold Rev30.needsNotify, shift. simpl. now rewrite Sub_shift.
  - rewrite !mailBody_lines, map_map. f_equal. apply map_ext. intros j.
    unfold line. specialize (F j). rewrite !format30_shape in F.
    unfold shift at 1. simpl.
    apply (f_equal (fun s => s ++ String newline "")) in F.
    rewrite !append_assoc in F. exact F.
Qed.

(** X15.  Notification does not go away with time: an item that needs
    notification at [now] needs it at every later time, and an item that
    expires no later than an item that needs notification needs it too.  So
    a run that is silent at some time would have been silent at every
    earlier time.  This holds in both revisions. *)
Theorem notification_persists (i j : Item) (items : list Item)
  (now now' : time.Time) :
  now <= now' ->
  (Rev30.needsNotify i now = true -> Rev30.needsNotify i now' = true) /\
  (Rev28.needsNotify i now = true -> Rev28.needsNotify i now' = true) /\
  (end_ i <= end_ j -> err j = None ->
     Rev30.needsNotify j now = true -> Rev30.needsNotify i now = true) /\
  (all items (fun i => negb (Rev30.needsNotify i now')) = true ->
     all items (fun i => negb (Rev30.needsNotify i now)) = true).
Proof.
  intros H.
  assert (B : forall b : bool, b <> false -> b = true)
    by (intros [|] N; [reflexivity | now elim N]).
  assert (P30 : forall x, Rev30.needsNotify x now = true ->
                  Rev30.needsNotify x now' = true).
  { intros x N. apply B. intros F. apply needsNotify30_false in F.
    destruct F as [He G].
    assert (F : Rev30.needsNotify x now = false).
    { apply needsNotify30_false. split; [exact He|].
      pose proof (Sub_mono (end_ x) (end_ x) now' now (Z.le_refl _) H). lia. }
    congruence. }
  split; [apply P30|]. split; [|split].
  - intros N. apply B. intros F. apply needsNotify28_false in F.
    destruct F as [He G].
    assert (F : Rev28.needsNotify i now = false).
    { apply needsNotify28_false. split; [exact He|].
      pose proof (Sub_mono (end_ i) (end_ i) now' now (Z.le_refl _) H). lia. }
    congruence.
  - intros L Hj N. apply B. intros F. apply needsNotify30_false in F.
    destruct F as [He G].
    assert (F : Rev30.needsNotify j now = false).
    { apply needsNotify30_false. split; [exact Hj|].
      pose proof (Sub_mono (end_ i) (end_ j) now now L (Z.le_refl _)). lia. }
    congruence.
  - rewrite !all_true. intros A v Hv. specialize (A v Hv).
    destruct (Rev30.needsNotify v now) eqn:N; [|reflexivity].
    now rewrite (P30 v N) in A.
Qed.

Lemma notification_persists_witness :
  Rev30.needsNotify (mkItem "a.example" (1000 + 30 * day) None) 2000 = true.
Proof.
  destruct (notification_persists
              (mkItem "a.example" (1000 + 30 * day) None)
              (mkItem "a.example" (1000 + 30 * day) None) [] 1000 2000)
    as (H & _); [discriminate|].
  apply H. reflexivity.
Defined.

(** ** Reading the bucket off the text *)

Lemma decimal_head (n : Z) :
  exists c s, fmt.decimal n = String c s /\ c <> "l"%char.
Proof.
  unfold fmt.decimal.
  destruct (Z.to_int n) as [d|d]; simpl.
  - destruct d; simpl; eexists; eexists; (split; [reflexivity | discriminate]).
  - eexists; eexists; (split; [reflexivity | discriminate]).
Qed.

Lemma days_text_differs (n : Z) (noun : string) :
  "expires in " ++ fmt.decimal n ++ " " ++ noun <> "ok" /\
  "expires in " ++ fmt.decimal n ++ " " ++ noun <> "already expired" /\
  "expires in " ++ fmt.decimal n ++ " " ++ noun <> "expires in less than a day" /\
  "expires in " ++ fmt.decimal n ++ " " ++ noun <> "good" /\
  "expires in " ++ fmt.decimal n ++ " " ++ noun <> "expired" /\
  "expires in " ++ fmt.decimal n ++ " " ++ noun <> "expires in less than 24h".
Proof.
  destruct (decimal_head n) as (c & s & -> & Hc).
  repeat split; simpl; intros H; try discriminate;
    inversion H; now elim Hc.
Qed.

Lemma expiryInfo30_expired_iff (e now : time.Time) :
  Rev30.expiryInfo e now = "already expired" <-> time.Sub e now < 0.
Proof.
  split; [|apply expiryInfo30_expired].
  intros H.
  destruct (buckets_cover (time.Sub e now) Rev30.expiryThreshold) as
    [(G & _)|[(G & _)|[(G & _)|(G & _)]]]; [discriminate | | assumption | |].
  - rewrite expiryInfo30_ok in H by assumption. discriminate.
  - rewrite expiryInfo30_lt_day in H by assumption. discriminate.
  - rewrite expiryInfo30_days in H by assumption.
    now apply days_text_differs in H.
Qed.

Lemma expiryInfo30_lt_day_iff (e now : time.Time) :
  Rev30.expiryInfo e now = "expires in less than a day"
  <-> 0 <= time.Sub e now < day.
Proof.
  split; [|apply expiryInfo30_lt_day].
  intros H.
  destruct (buckets_cover (time.Sub e now) Rev30.expiryThreshold) as
    [(G & _)|[(G & _)|[(G & _)|(G & _)]]]; [discriminate | | | assumption |].
  - rewrite expiryInfo30_ok in H by assumption. discriminate.
  - rewrite expiryInfo30_expired in H by assumption. discriminate.
  - rewrite expiryInfo30_days in H by assumption.
    now apply days_text_differs in H.
Qed.

(** X16.  The text of [expiryInfo] tells the bucket: it is "already
    expired" only for a negative gap, "expires in less than a day" only for
    a gap from 0 up to 24h, "ok" only for a gap above the threshold, and of
    the form "expires in N day(s)" only for a gap from 24h up to the
    threshold, in which case [N] is the number of whole days of the gap. *)
Theorem bucket_from_text (e now : time.Time) :
  let g := time.Sub e now in
  (Rev30.expiryInfo e now = "already expired" <-> g < 0) /\
  (Rev30.expiryInfo e now = "expires in less than a day"
   <-> 0 <= g < 24 * time.Hour) /\
  (Rev30.expiryInfo e now = "ok" <-> g > Rev30.expiryThreshold) /\
  ((exists N, Rev30.expiryInfo e now
              = "expires in " ++ fmt.decimal N ++ " " ++ pluralize N "day")
   <-> 24 * time.Hour <= g <= Rev30.expiryThreshold) /\
  (24 * time.Hour <= g <= Rev30.expiryThreshold ->
   Rev30.expiryInfo e now
   = "expires in " ++ fmt.decimal (g / (24 * time.Hour)) ++ " "
       ++ pluralize (g / (24 * time.Hour)) "day").
Proof.
  cbv zeta. fold day.
  assert (D : day <= time.Sub e now <= Rev30.expiryThreshold ->
              Rev30.expiryInfo e now
              = "expires in " ++ fmt.decimal (time.Sub e now / day) ++ " "
                  ++ pluralize (time.Sub e now / day) "day").
  { intros G. rewrite expiryInfo30_days by assumption. unfold pluralize.
    now destruct (time.Sub e now / day =? 1). }
  split; [apply expiryInfo30_expired_iff|].
  split; [apply expiryInfo30_lt_day_iff|].
  split; [apply expiryInfo30_ok_iff|].
  split; [|exact D].
  split; [|intros G; eexists; now apply D].
  intros (N & H).
  destruct (buckets_cover (time.Sub e now) Rev30.expiryThreshold) as
    [(G & _)|[(G & _)|[(G & _)|(G & _)]]]; [discriminate | | | | assumption].
  - rewrite expiryInfo30_ok in H by assumption.
    symmetry in H. now apply days_text_differs in H.
  - rewrite expiryInfo30_expired in H by assumption.
    symmetry in H. now apply days_text_differs in H.
  - rewrite expiryInfo30_lt_day in H by assumption.
    symmetry in H. now apply days_text_differs in H.
Qed.

Lemma bucket_from_text_witness :
  Rev30.expiryInfo (1000 + 3 * day) 1000 = "expires in 3 days".
Proof.
  destruct (bucket_from_text (1000 + 3 * day) 1000) as (_ & _ & _ & _ & H).
  apply H. vm_compute. split; discriminate.
Defined.

(** X17.  The clamping of [Sub] does not change a classification: whatever
    the two instants, also when their difference does not fit a [Duration],
    [expiryInfo] says "ok" exactly when the expiry is more than the
    threshold after [now] and "already expired" exactly when it is before
    [now], and [needsNotify] is false exactly for an item without error
    that expires more than the threshold after [now].  In particular the
    zero time as expiry is always "already expired" for a [now] after it. *)
Theorem classification_by_difference (i : Item) (now : time.Time) :
  let d := end_ i - now in
  (Rev30.expiryInfo (end_ i) now = "ok" <-> d > Rev30.expiryThreshold) /\
  (Rev30.expiryInfo (end_ i) now = "already expired" <-> d < 0) /\
  (Rev30.needsNotify i now = false <-> err i = None /\ d > Rev30.expiryThreshold) /\
  (d > time.maxDuration -> Rev30.expiryInfo (end_ i) now = "ok") /\
  (d < time.minDuration -> Rev30.expiryInfo (end_ i) now = "already expired") /\
  (end_ i = time.zero -> 0 < now ->
     Rev30.expiryInfo (end_ i) now = "already expired").
Proof.
  cbv zeta.
  assert (G : time.Sub (end_ i) now > Rev30.expiryThreshold
              <-> end_ i - now > Rev30.expiryThreshold)
    by (apply Sub_gt; split; [discriminate | reflexivity]).
  assert (L : time.Sub (end_ i) now < 0 <-> end_ i - now < 0)
    by (apply Sub_lt; split; [reflexivity | discriminate]).
  split; [now rewrite expiryInfo30_ok_iff|].
  split; [now rewrite expiryInfo30_expired_iff|].
  split; [now rewrite needsNotify30_false, G|].
  split; [|split].
  - intros H. apply expiryInfo30_ok_iff, G.
    unfold time.maxDuration in H.
    assert (Rev30.expiryThreshold < 2 ^ 63 - 1) by reflexivity. lia.
  - intros H. apply expiryInfo30_expired_iff, L.
    unfold time.minDuration in H. lia.
  - intros Z P. apply expiryInfo30_expired_iff, L.
    rewrite Z. unfold time.zero. lia.
Qed.

Lemma classification_by_difference_witness :
  Rev30.expiryInfo time.zero (2 ^ 65) = "already expired" /\
  Rev30.expiryInfo (2 ^ 65) 0 = "ok".
Proof.
  destruct (classification_by_difference (mkItem "a.example" time.zero None) (2 ^ 65))
    as (_ & _ & _ & _ & _ & H).
  destruct (classification_by_difference (mkItem "a.example" (2 ^ 65) None) 0)
    as (_ & _ & _ & K & _).
  split; [apply H; reflexivity | apply K; reflexivity].
Defined.

(** X18.  The two revisions decide differently for exactly the items
    without error whose gap is above 28 days and at most 30 days: for them
    the revision with the 28-day threshold needs no notification and says
    "good", and the revision with the 30-day threshold needs one.  Whatever
    needs notification with the threshold of 28 days needs it with that of
    30 days. *)
Theorem revisions_differ (i : Item) (now : time.Time) :
  let g := time.Sub (end_ i) now in
  (Rev28.needsNotify i now <> Rev30.needsNotify i now
   <-> err i = None /\
       Rev28.notifyExpiryThreshold < g <= Rev30.expiryThreshold) /\
  (err i = None ->
   Rev28.notifyExpiryThreshold < g <= Rev30.expiryThreshold ->
   Rev28.needsNotify i now = false /\ Rev30.needsNotify i now = true /\
   Rev28.expiryInfo (end_ i) now = "good") /\
  (Rev28.needsNotify i now = true -> Rev30.needsNotify i now = true).
Proof.
  cbv zeta.
  assert (T : Rev28.notifyExpiryThreshold < Rev30.expiryThreshold) by reflexivity.
  pose proof (needsNotify30_false i now) as N30.
  pose proof (needsNotify28_false i now) as N28.
  destruct (Rev30.needsNotify i now) eqn:A, (Rev28.needsNotify i now) eqn:B.
  - split; [|split; [|reflexivity]].
    + split; [intros H; now elim H|]. intros [He G].
      assert (true = false) by (apply N28; split; [exact He | lia]). discriminate.
    + intros He G.
      assert (true = false) by (apply N28; split; [exact He | lia]). discriminate.
  - destruct (proj1 N28 eq_refl) as [He G].
    split; [|split; [|discriminate]].
    + split; [intros _|discriminate]. split; [exact He|]. split; [lia|].
      destruct (Z_le_gt_dec (time.Sub (end_ i) now) Rev30.expiryThreshold) as [L|L];
        [exact L|].
      assert (true = false) by (apply N30; now split). discriminate.
    + intros _ _. split; [reflexivity|]. split; [reflexivity|].
      now apply expiryInfo28_good.
  - destruct (proj1 N30 eq_refl) as [He G].
    assert (true = false) by (apply N28; split; [exact He | lia]). discriminate.
  - destruct (proj1 N30 eq_refl) as [He G].
    split; [|split; [|discriminate]].
    + split; [intros H; now elim H|]. intros [_ L]. lia.
    + intros _ L. lia.
Qed.

Lemma revisions_differ_witness :
  Rev28.needsNotify (mkItem "a.example" (1000 + 29 * day) None) 1000 = false /\
  Rev30.needsNotify (mkItem "a.example" (1000 + 29 * day) None) 1000 = true.
Proof.
  destruct (revisions_differ (mkItem "a.example" (1000 + 29 * day) None) 1000)
    as (_ & H & _).
  destruct H as (A & B & _); [reflexivity | vm_compute; split; [reflexivity | discriminate] |].
  split; [exact A | exact B].
Defined.

(** ** The body of a concatenation *)

Lemma lines_end (c : Item -> string) (items : list Item) :
  items <> [] -> endsWithNewline (concat (map (line c) items)) = true.
Proof.
  intros H. destruct (exists_last H) as (l & x & ->).
  rewrite map_app, concat_app. simpl. rewrite append_empty_r.
  unfold line.
  replace (domain x ++ ": " ++ c x ++ String newline "")
    with ((domain x ++ ": " ++ c x) ++ String newline "")
    by now rewrite !append_assoc.
  rewrite <- append_assoc.
  rewrite endsWithNewline_app by discriminate. reflexivity.
Qed.

(** X19.  The body of two lists of items put end to end is the body of the
    first followed by the body of the second, so the line of an item does
    not depend on the other items; the body of no item is empty, and the
    body of at least one item ends in a newline.  This holds of [mailBody]
    and of [resultsBody]. *)
Theorem body_of_concatenation (a b : list Item) (now : time.Time) :
  bytes.String_ (Rev30.mailBody (a ++ b) now)
  = bytes.String_ (Rev30.mailBody a now) ++ bytes.String_ (Rev30.mailBody b now) /\
  Rev28.resultsBody (a ++ b) now
  = Rev28.resultsBody a now ++ Rev28.resultsBody b now /\
  bytes.String_ (Rev30.mailBody [] now) = "" /\
  Rev28.resultsBody [] now = "" /\
  (a <> [] ->
     endsWithNewline (bytes.String_ (Rev30.mailBody a now)) = true /\
     endsWithNewline (Rev28.resultsBody a now) = true).
Proof.
  unfold bytes.String_.
  rewrite !mailBody_lines, !resultsBody_lines, !map_app, !concat_app.
  split; [reflexivity|]. split; [reflexivity|].
  split; [reflexivity|]. split; [reflexivity|].
  intros H. split; now apply lines_end.
Qed.

Lemma body_of_concatenation_witness :
  endsWithNewline
    (Rev30.mailBody [mkItem "a.example" time.zero (Some (mkError "timeout"))] 1000)
  = true.
Proof.
  destruct (body_of_concatenation
              [mkItem "a.example" time.zero (Some (mkError "timeout"))] [] 1000)
    as (_ & _ & _ & _ & H).
  apply H. discriminate.
Defined.

(** X20.  [expiryInfo] and [needsNotify] of the revision with the 28-day
    threshold at the threshold itself: an item without error whose gap is
    exactly 28 days is classified "expires in 28 days" and needs
    notification; one nanosecond more and it is "good" and needs none. *)
Theorem threshold28_boundary (i : Item) (now : time.Time) :
  err i = None ->
  (time.Sub (end_ i) now = Rev28.notifyExpiryThreshold ->
     Rev28.expiryInfo (end_ i) now = "expires in 28 days" /\
     Rev28.format i now = domain i ++ ": expires in 28 days" /\
     Rev28.needsNotify i now = true) /\
  (time.Sub (end_ i) now = Rev28.notifyExpiryThreshold + time.Nanosecond ->
     Rev28.expiryInfo (end_ i) now = "good" /\
     Rev28.needsNotify i now = false).
Proof.
  intros He. split; intros G.
  - assert (E : Rev28.expiryInfo (end_ i) now = "expires in 28 days").
    { rewrite expiryInfo28_days by (rewrite G; split; discriminate).
      rewrite G. reflexivity. }
    split; [exact E|]. split.
    + rewrite format28_shape. unfold classification28. now rewrite He, E.
    + destruct (Rev28.needsNotify i now) eqn:N; [reflexivity|].
      apply needsNotify28_false in N. rewrite G in N. lia.
  - split.
    + apply expiryInfo28_good. rewrite G. reflexivity.
    + apply needsNotify28_false. split; [exact He|]. rewrite G. reflexivity.
Qed.

Lemma threshold28_boundary_witness :
  Rev28.expiryInfo (1000 + 28 * day) 1000 = "expires in 28 days" /\
  Rev28.needsNotify (mkItem "a.example" (1001 + 28 * day) None) 1000 = false.
Proof.
  destruct (threshold28_boundary (mkItem "a.example" (1000 + 28 * day) None) 1000
              eq_refl) as (H & _).
  destruct (threshold28_boundary (mkItem "a.example" (1001 + 28 * day) None) 1000
              eq_refl) as (_ & K).
  split; [exact (proj1 (H eq_refl)) | exact (proj2 (K eq_refl))].
Defined.

Lemma rev28_table_witness :
  Rev28.format (mkItem "a.example" (1000 - time.Hour) None) 1000
  = "a.example: expired" /\
  Rev28.format (mkItem "a.example" (1000 + 18 * time.Hour) None) 1000
  = "a.example: expires in less than 24h".
Proof.
  destruct (rev28_table (mkItem "a.example" (1000 - time.Hour) None) 1000)
    as (_ & H).
  destruct (H eq_refl) as (F & _ & E & _).
  destruct (rev28_table (mkItem "a.example" (1000 + 18 * time.Hour) None) 1000)
    as (_ & K).
  destruct (K eq_refl) as (F' & _ & _ & L & _).
  split.
  - rewrite F, E; reflexivity.
  - rewrite F', L; [reflexivity|]. vm_compute. split; [discriminate | reflexivity].
Defined.
